(** * devops-soar: the triage endpoint and the provider lookup scripts

    A shallow embedding of [app/app.py], [app/scripts/check_abuseipdb.py]
    and [app/scripts/check_virustotal.py], and the properties of the
    triage pipeline stated over it.

    Python code that talks to the outside (a child process, a file, an
    HTTP endpoint, standard output) is written in a small monad: a
    computation reads an environment, appends the effects it performs to
    a trace, and ends in a value or in a raised exception. *)

From Stdlib Require Import String Ascii List ZArith Bool Lia DecimalString.
From ExtLib Require Import Structures.Monad Structures.MonadExc.
Import ListNotations.
Import MonadNotation.
Local Open Scope string_scope.
Local Open Scope Z_scope.
Local Open Scope monad_scope.

(* ===================================================================== *)
(** * Python values and the builtins the sources use *)
(* ===================================================================== *)

Module Py.

(** What [json.loads] (hence [request.get_json()] and [response.json()])
    can produce.  A [str] is the string of its code points, each below
    256.  A [float] is kept as the text [repr] gives it, which
    determines it.  A [dict] keeps its items in insertion order. *)
#[warnings="-register-all"]
Inductive pyval : Type :=
| PNone
| PBool (b : bool)
| PInt (n : Z)
| PFloat (shown : string)
| PStr (s : string)
| PList (xs : list pyval)
| PDict (items : list (string * pyval)).

Inductive req_kind := ConnectionFailure | HTTPError | InvalidJSON.

(** The exception classes that occur in the three files. *)
Inductive exn : Type :=
| TypeError
| AttributeError
| KeyError (key : string)
| IndexError
| FileNotFoundError (filename : string)
| IsADirectoryError (filename : string)
| PermissionError (filename : string)
| UnicodeDecodeError
| ValueError (msg : string)
| CalledProcessError (returncode : Z) (cmd : list string) (stderr : option string)
| RequestException (kind : req_kind) (msg : string)
| JSONDecodeError (msg : string)
| SystemExit (code : Z).

(** ** str *)

Definition str_empty (s : string) : bool :=
  match s with EmptyString => true | String _ _ => false end.

(** [needle in hay] on two [str]. *)
Fixpoint str_contains (needle hay : string) : bool :=
  String.prefix needle hay ||
  match hay with
  | EmptyString => false
  | String _ rest => str_contains needle rest
  end.

(** [s.split(sep)] for a one-character separator: never an empty list. *)
Fixpoint str_split (sep : ascii) (s : string) : list string :=
  match s with
  | EmptyString => [EmptyString]
  | String c rest =>
      if Ascii.eqb c sep then EmptyString :: str_split sep rest
      else match str_split sep rest with
           | field :: fields => String c field :: fields
           | [] => [String c EmptyString]
           end
  end.

(** [c.isspace()] on the code points below 256. *)
Definition isspace (c : ascii) : bool :=
  let n := Z.of_nat (nat_of_ascii c) in
  ((9 <=? n) && (n <=? 13)) || ((28 <=? n) && (n <=? 32))
  || (n =? 133) || (n =? 160).

Fixpoint lstrip (s : string) : string :=
  match s with
  | EmptyString => EmptyString
  | String c rest => if isspace c then lstrip rest else s
  end.

Fixpoint rstrip (s : string) : string :=
  match s with
  | EmptyString => EmptyString
  | String c rest =>
      let rest' := rstrip rest in
      if isspace c && str_empty rest' then EmptyString else String c rest'
  end.

(** [s.strip()]. *)
Definition strip (s : string) : string := rstrip (lstrip s).

Fixpoint join (sep : string) (parts : list string) : string :=
  match parts with
  | [] => EmptyString
  | [p] => p
  | p :: ps => p ++ sep ++ join sep ps
  end.

(** The character U+0000, which no argument of a process may hold. *)
Definition NUL : ascii := ascii_of_nat 0.
Definition CR : ascii := ascii_of_nat 13.
Definition LF : ascii := ascii_of_nat 10.

(** What a file opened in text mode with the default [newline=None]
    gives for the characters stored in it: CR LF and a CR alone are
    read as LF. *)
Fixpoint universal_newlines (stored : string) : string :=
  match stored with
  | EmptyString => EmptyString
  | String c rest =>
      if Ascii.eqb c CR then
        String LF
          match rest with
          | String c' rest' =>
              if Ascii.eqb c' LF then universal_newlines rest'
              else universal_newlines rest
          | EmptyString => EmptyString
          end
      else String c (universal_newlines rest)
  end.

(** ** repr and str *)

Definition hexdigit (n : nat) : ascii :=
  ascii_of_nat (if Nat.ltb n 10 then 48 + n else 87 + n)%nat.

Definition printable (n : nat) : bool :=
  (Nat.leb 32 n && Nat.ltb n 127) || (Nat.leb 161 n && negb (Nat.eqb n 173)).

Definition repr_char (quote c : ascii) : string :=
  let n := nat_of_ascii c in
  if Ascii.eqb c quote || Ascii.eqb c "\" then String "\" (String c EmptyString)
  else if Nat.eqb n 9 then "\t"
  else if Nat.eqb n 10 then "\n"
  else if Nat.eqb n 13 then "\r"
  else if printable n then String c EmptyString
  else String "\" (String "x" (String (hexdigit (n / 16)) (String (hexdigit (n mod 16)) EmptyString))).

Fixpoint has_char (c : ascii) (s : string) : bool :=
  match s with
  | EmptyString => false
  | String c' rest => Ascii.eqb c c' || has_char c rest
  end.

Definition squote : ascii := "'".
Definition dquote : ascii := ascii_of_nat 34.

(** [repr] of a [str]: in single quotes, unless it holds a single quote
    and no double quote. *)
Definition repr_str (s : string) : string :=
  let quote : ascii :=
    if has_char squote s && negb (has_char dquote s) then dquote else squote in
  String quote (String.concat EmptyString (map (repr_char quote) (list_ascii_of_string s))
                ++ String quote EmptyString).

Definition str_of_int (n : Z) : string := NilZero.string_of_int (Z.to_int n).

Fixpoint repr (v : pyval) : string :=
  match v with
  | PNone => "None"
  | PBool true => "True"
  | PBool false => "False"
  | PInt n => str_of_int n
  | PFloat shown => shown
  | PStr s => repr_str s
  | PList xs => "[" ++ join ", " (map repr xs) ++ "]"
  | PDict items =>
      "{" ++ join ", " (map (fun '(k, x) => repr_str k ++ ": " ++ repr x) items) ++ "}"
  end.

(** [str(v)], which is what an f-string field [{v}] renders. *)
Definition str (v : pyval) : string :=
  match v with
  | PStr s => s
  | _ => repr v
  end.

(** ** Truth value, membership, subscription, equality *)

(** [bool(v)], the test of [not v] and [if v]. *)
Definition truthy (v : pyval) : bool :=
  match v with
  | PNone => false
  | PBool b => b
  | PInt n => negb (n =? 0)
  | PFloat shown => negb (String.eqb shown "0.0" || String.eqb shown "-0.0")
  | PStr s => negb (str_empty s)
  | PList xs => match xs with [] => false | _ => true end
  | PDict items => match items with [] => false | _ => true end
  end.

(** [v == s] where [s] is a [str]: only an equal [str] compares equal. *)
Definition eq_str (v : pyval) (s : string) : bool :=
  match v with
  | PStr s' => String.eqb s' s
  | _ => false
  end.

Fixpoint dict_get (key : string) (items : list (string * pyval)) : option pyval :=
  match items with
  | [] => None
  | (k, x) :: rest => if String.eqb k key then Some x else dict_get key rest
  end.

Definition dict_has (key : string) (items : list (string * pyval)) : bool :=
  match dict_get key items with Some _ => true | None => false end.

(** [key in v] for a [str] key: a key of a dict, an element of a list, a
    substring of a str; a [TypeError] on what is not a container. *)
Definition contains (key : string) (v : pyval) : exn + bool :=
  match v with
  | PDict items => inr (dict_has key items)
  | PList xs => inr (existsb (fun x => eq_str x key) xs)
  | PStr s => inr (str_contains key s)
  | _ => inl TypeError
  end.

(** [v[key]] for a [str] key. *)
Definition getitem (v : pyval) (key : string) : exn + pyval :=
  match v with
  | PDict items =>
      match dict_get key items with
      | Some x => inr x
      | None => inl (KeyError key)
      end
  | _ => inl TypeError
  end.

(** [v.get(key, default)]: only a dict has the method. *)
Definition get (v : pyval) (key : string) (default : pyval) : exn + pyval :=
  match v with
  | PDict items =>
      match dict_get key items with
      | Some x => inr x
      | None => inr default
      end
  | _ => inl AttributeError
  end.

(** [xs[i]] on a list of strings, [i >= 0]. *)
Definition index (xs : list string) (i : nat) : exn + string :=
  match nth_error xs i with
  | Some x => inr x
  | None => inl IndexError
  end.

End Py.
Import Py.

(* ===================================================================== *)
(** * Effects *)
(* ===================================================================== *)

Module Eff.

Inductive result (A : Type) : Type :=
| Ok (a : A)
| Raised (e : exn).
Arguments Ok {A} a.
Arguments Raised {A} e.

(** A computation in environment [W] with effects of type [E]. *)
Definition eff (W E A : Type) : Type := W -> result A * list E.

Section Ops.
Context {W E : Type}.

Definition eff_ret {A} (a : A) : eff W E A := fun _ => (Ok a, []).

Definition eff_bind {A B} (m : eff W E A) (k : A -> eff W E B) : eff W E B :=
  fun w =>
    match m w with
    | (Ok a, t1) => let (r, t2) := k a w in (r, (t1 ++ t2)%list)
    | (Raised e, t1) => (Raised e, t1)
    end.

Definition eff_raise {A} (e : exn) : eff W E A := fun _ => (Raised e, []).

(** [try: m  except ...: h e]: a handler that does not match the
    exception re-raises it. *)
Definition eff_catch {A} (m : eff W E A) (h : exn -> eff W E A) : eff W E A :=
  fun w =>
    match m w with
    | (Ok a, t1) => (Ok a, t1)
    | (Raised e, t1) => let (r, t2) := h e w in (r, (t1 ++ t2)%list)
    end.

Definition ask : eff W E W := fun w => (Ok w, []).

Definition emit (e : E) : eff W E unit := fun _ => (Ok tt, [e]).

(** A pure operation that may raise. *)
Definition lift {A} (x : exn + A) : eff W E A :=
  match x with
  | inr a => eff_ret a
  | inl e => eff_raise e
  end.

#[global] Instance Monad_eff : Monad (eff W E) :=
  {| ret := @eff_ret; bind := @eff_bind |}.

#[global] Instance MonadExc_eff : MonadExc exn (eff W E) :=
  {| raise := @eff_raise; catch := @eff_catch |}.
End Ops.

End Eff.
Import Eff.

(* ===================================================================== *)
(** * app/app.py *)
(* ===================================================================== *)

Module App.

(** What the machine does with an argument vector it is asked to
    execute: no executable of that name is found, or the program runs
    and exits with a status, having written [stderr_text] to its
    standard error.  (The other errors of the operating system, a file
    that may not be executed or an argument list that is too long, are
    states the machines of this model do not have.) *)
Inductive exec_outcome :=
| NoSuchFile
| Ran (returncode : Z) (stderr_text : string).

(** A file as [open(path, 'r')] finds it: text, given by the characters
    stored in it, or something that cannot be read as text. *)
Inductive read_error := NotDecodable | IsDirectory | NoPermission.

Inductive file :=
| Text (stored : string)
| Unreadable (why : read_error).

(** The machine the handler runs on: what executing an argument vector
    does, and the files as the handler finds them when it opens them
    (none where there is no file). *)
Record World := {
  exec : list string -> exec_outcome;
  files : string -> option file
}.

(** How a call of [subprocess.run] on a list of arguments ends.  An
    argument that holds U+0000 makes Python raise ValueError before it
    looks for the executable, on every machine; otherwise the machine
    decides. *)
Inductive proc_outcome :=
| ExecNotFound
| Exited (returncode : Z) (stderr_text : string)
| EmbeddedNull.

Definition job (w : World) (args : list string) : proc_outcome :=
  if existsb (has_char NUL) args then EmbeddedNull
  else match exec w args with
       | NoSuchFile => ExecNotFound
       | Ran rc err => Exited rc err
       end.

(** What the handler does to the outside: [Spawn] is a call of
    [subprocess.run] on that vector, recorded whether or not a process
    comes of it; [OpenRead] is an [open(path, 'r')]. *)
Inductive event :=
| Spawn (argv : list string) (shell : bool)
| OpenRead (path : string).

Definition M := eff World event.

(** The keyword arguments of [subprocess.run] and their defaults. *)
Record run_opts := {
  capture_output : bool;
  shell : bool;
  text : bool;
  check : bool
}.

Record CompletedProcess := {
  cp_returncode : Z;
  cp_stderr : option string
}.

(** [subprocess.run(args, ...)] on a list of arguments: the call is
    recorded; an argument with U+0000 raises ValueError; otherwise the
    child is executed from [args] as they are; its standard error
    reaches the caller only when it is captured; with [check] a non-zero
    status raises [CalledProcessError] holding what was captured. *)
Definition subprocess_run (args : list string) (o : run_opts) : M CompletedProcess :=
  emit (Spawn args (shell o)) ;;
  w <- ask ;;
  match job w args with
  | ExecNotFound => raise (FileNotFoundError (hd EmptyString args))
  | Exited rc err =>
      let captured := if capture_output o then Some err else None in
      if check o && negb (rc =? 0)
      then raise (CalledProcessError rc args captured)
      else ret {| cp_returncode := rc; cp_stderr := captured |}
  | EmbeddedNull => raise (ValueError "embedded null byte")
  end.

Definition read_exception (path : string) (why : read_error) : exn :=
  match why with
  | NotDecodable => UnicodeDecodeError
  | IsDirectory => IsADirectoryError path
  | NoPermission => PermissionError path
  end.

(** [with open(path, 'r') as f: f.read()]: the text of the file with its
    line ends translated; an error when there is no file, or when the
    file cannot be read as text. *)
Definition read_text (path : string) : M string :=
  emit (OpenRead path) ;;
  w <- ask ;;
  match files w path with
  | Some (Text stored) => ret (universal_newlines stored)
  | Some (Unreadable why) => raise (read_exception path why)
  | None => raise (FileNotFoundError path)
  end.

(** [jsonify(d)] with the status the view returns beside it (200 when
    it returns the response alone). *)
Record Response := {
  body : list (string * pyval);
  status : Z
}.

Definition jsonify (d : list (string * pyval)) (code : Z) : Response :=
  {| body := d; status := code |}.

Definition of_option (o : option string) : pyval :=
  match o with Some s => PStr s | None => PNone end.

(** The argument vector built for the playbook. *)
Definition command (ip_address : pyval) : list string :=
  ["ansible-playbook";
   "ansible/playbook.yml";
   "--extra-vars";
   "ip_to_check=" ++ str ip_address].

(** [triage_ip], from the value of [request.get_json()] on. *)
Definition triage_ip (data : pyval) : M Response :=
  missing <- (if negb (truthy data) then ret true
              else has <- lift (contains "ip" data) ;; ret (negb has)) ;;
  if (missing : bool) then
    ret (jsonify [("error", PStr "Missing 'ip' in request body")] 400)
  else
    ip_address <- lift (getitem data "ip") ;;
    if eq_str ip_address "127.0.0.1" then
      ret (jsonify [("message", PStr "Playbook successfully executed for IP: 127.0.0.1");
                    ("report", PStr "There's no place like home. It's safe here.")] 200)
    else
      catch
        (subprocess_run (command ip_address)
           {| capture_output := false; shell := false; text := true; check := true |} ;;
         report_content <- read_text "report.md" ;;
         ret (jsonify [("message", PStr ("Playbook successfully executed for IP: " ++ str ip_address));
                       ("report", PStr report_content)] 200))
        (fun e =>
           match e with
           | CalledProcessError _ _ stderr =>
               ret (jsonify [("error", PStr ("Playbook execution failed for IP: " ++ str ip_address));
                             ("playbook_error", of_option stderr)] 500)
           | FileNotFoundError _ =>
               ret (jsonify [("error", PStr "ansible-playbook command not found.")] 500)
           | _ => raise e
           end).

End App.

(* ===================================================================== *)
(** * What the two lookup scripts share: sys, print, requests *)
(* ===================================================================== *)

Module Script.

Record Request := {
  url : string;
  headers : list (string * string);
  params : list (string * string)
}.

(** What [response.json()] does with the body: the decoded value, or an
    exception.  requests from 2.27 on raises its own [JSONDecodeError],
    a [RequestException]; older versions raise [json.JSONDecodeError]. *)
Inductive decoding :=
| Decoded (v : pyval)
| Undecodable (as_request_exception : bool) (msg : string).

Record HttpResponse := {
  status_code : Z;
  reason : string;
  final_url : string;
  payload : decoding
}.

Inductive http_outcome :=
| Unreachable (msg : string)
| Responded (r : HttpResponse).

(** The process environment of one run of a script. *)
Record World := {
  secrets_path : string;
  secrets : option (list string);
  argv : list string;
  network : Request -> http_outcome
}.

Inductive event :=
| OpenRead (path : string)
| HttpGet (req : Request)
| Sleep (seconds : Z)
| Stdout (json : pyval)
| Traceback (e : exn).

Definition M := eff World event.

(** [open(SECRETS_FILE, 'r')] and the lines that iterating it yields. *)
Definition open_lines : M (list string) :=
  w <- ask ;;
  emit (OpenRead (secrets_path w)) ;;
  match secrets w with
  | Some lines => ret lines
  | None => raise (FileNotFoundError (secrets_path w))
  end.

(** [print(json.dumps(v))]: one line of standard output, the JSON text
    of [v]. *)
Definition print_json (v : pyval) : M unit := emit (Stdout v).

Definition error_object (msg : string) : pyval := PDict [("error", PStr msg)].

Definition sys_exit {A} (code : Z) : M A := raise (SystemExit code).

Definition sleep (seconds : Z) : M unit := emit (Sleep seconds).

(** [requests.get(...)]. *)
Definition requests_get (req : Request) : M HttpResponse :=
  emit (HttpGet req) ;;
  w <- ask ;;
  match network w req with
  | Unreachable msg => raise (RequestException ConnectionFailure msg)
  | Responded r => ret r
  end.

Definition http_error_msg (r : HttpResponse) : string :=
  str_of_int (status_code r)
  ++ (if status_code r <? 500 then " Client Error: " else " Server Error: ")
  ++ reason r ++ " for url: " ++ final_url r.

(** [response.raise_for_status()]. *)
Definition raise_for_status (r : HttpResponse) : M unit :=
  if (400 <=? status_code r) && (status_code r <? 600)
  then raise (RequestException HTTPError (http_error_msg r))
  else ret tt.

(** [response.json()]. *)
Definition response_json (r : HttpResponse) : M pyval :=
  match payload r with
  | Decoded v => ret v
  | Undecodable true msg => raise (RequestException InvalidJSON msg)
  | Undecodable false msg => raise (JSONDecodeError msg)
  end.

(** Running a file as a program: the exit status is 0 when the module
    body runs to its end, the code of [sys.exit], and 1 after an
    uncaught exception, whose traceback goes to standard error. *)
Definition run (prog : M unit) (w : World) : Z * list event :=
  match prog w with
  | (Ok _, t) => (0, t)
  | (Raised (SystemExit code), t) => (code, t)
  | (Raised e, t) => (1, (t ++ [Traceback e])%list)
  end.

End Script.

(* ===================================================================== *)
(** * app/scripts/check_abuseipdb.py *)
(* ===================================================================== *)

Module CheckAbuseIPDB.
Import Script.

(** The [for line in f] loop of the configuration block, with its
    [break]. *)
Fixpoint scan (lines : list string) (API_KEY : string) : exn + string :=
  match lines with
  | [] => inr API_KEY
  | line :: rest =>
      if str_contains "abuseipdb_key:" line then
        match index (str_split ":" line) 1 with
        | inr field => inr (strip field)
        | inl e => inl e
        end
      else scan rest API_KEY
  end.

(** The module body above [main]: it leaves [API_KEY]. *)
Definition config : M string :=
  API_KEY <- catch
               (lines <- open_lines ;;
                lift (scan lines EmptyString))
               (fun e =>
                  match e with
                  | FileNotFoundError _ =>
                      w <- ask ;;
                      print_json (error_object
                        ("Secrets file not found. Looked at: " ++ secrets_path w)) ;;
                      sys_exit 1
                  | _ => raise e
                  end) ;;
  if negb (truthy (PStr API_KEY)) then
    print_json (error_object "AbuseIPDB API key not found or is empty in secrets.yml") ;;
    sys_exit 1
  else ret API_KEY.

Definition URL : string := "https://api.abuseipdb.com/api/v2/check".

Definition request (API_KEY ip_address : string) : Request :=
  {| url := URL;
     headers := [("Accept", "application/json"); ("Key", API_KEY)];
     params := [("ipAddress", ip_address); ("maxAgeInDays", "90")] |}.

Definition main (API_KEY : string) : M unit :=
  w <- ask ;;
  (if (length (argv w) <? 2)%nat then
     print_json (error_object "No IP address provided.") ;;
     sys_exit 1
   else ret tt) ;;
  ip_address <- lift (index (argv w) 1) ;;
  catch
    (response <- requests_get (request API_KEY ip_address) ;;
     raise_for_status response ;;
     decoded_response <- response_json response ;;
     data <- lift (get decoded_response "data" (PDict [])) ;;
     print_json data)
    (fun e =>
       match e with
       | RequestException _ msg =>
           print_json (error_object ("API request failed: " ++ msg)) ;;
           sys_exit 1
       | JSONDecodeError _ =>
           print_json (error_object "Failed to decode JSON response from API.") ;;
           sys_exit 1
       | _ => raise e
       end).

(** The file run as a program. *)
Definition script : M unit :=
  API_KEY <- config ;;
  main API_KEY.

End CheckAbuseIPDB.

(* ===================================================================== *)
(** * app/scripts/check_virustotal.py *)
(* ===================================================================== *)

Module CheckVirusTotal.
Import Script.

Fixpoint scan (lines : list string) (API_KEY : string) : exn + string :=
  match lines with
  | [] => inr API_KEY
  | line :: rest =>
      if str_contains "virustotal_key:" line then
        match index (str_split ":" line) 1 with
        | inr field => inr (strip field)
        | inl e => inl e
        end
      else scan rest API_KEY
  end.

Definition config : M string :=
  API_KEY <- catch
               (lines <- open_lines ;;
                lift (scan lines EmptyString))
               (fun e =>
                  match e with
                  | FileNotFoundError _ =>
                      w <- ask ;;
                      print_json (error_object
                        ("Secrets file not found at " ++ secrets_path w)) ;;
                      sys_exit 1
                  | _ => raise e
                  end) ;;
  if negb (truthy (PStr API_KEY)) then
    print_json (error_object "VirusTotal API key not found or is empty in secrets.yml") ;;
    sys_exit 1
  else ret API_KEY.

Definition URL : string := "https://www.virustotal.com/api/v3/ip_addresses/".

Definition request (API_KEY ip_address : string) : Request :=
  {| url := URL ++ ip_address;
     headers := [("accept", "application/json"); ("x-apikey", API_KEY)];
     params := [] |}.

Definition main (API_KEY : string) : M unit :=
  w <- ask ;;
  (if (length (argv w) <? 2)%nat then
     print_json (error_object "No IP address provided.") ;;
     sys_exit 1
   else ret tt) ;;
  ip_address <- lift (index (argv w) 1) ;;
  catch
    (response <- requests_get (request API_KEY ip_address) ;;
     raise_for_status response ;;
     decoded_response <- response_json response ;;
     data <- lift (get decoded_response "data" (PDict [])) ;;
     attributes <- lift (get data "attributes" (PDict [])) ;;
     stats <- lift (get attributes "last_analysis_stats" (PDict [])) ;;
     owner <- lift (get attributes "as_owner" (PStr "N/A")) ;;
     sleep 1 ;;
     harmless <- lift (get stats "harmless" (PInt 0)) ;;
     malicious <- lift (get stats "malicious" (PInt 0)) ;;
     suspicious <- lift (get stats "suspicious" (PInt 0)) ;;
     undetected <- lift (get stats "undetected" (PInt 0)) ;;
     let result := PDict [("as_owner", owner);
                          ("harmless", harmless);
                          ("malicious", malicious);
                          ("suspicious", suspicious);
                          ("undetected", undetected)] in
     print_json result)
    (fun e =>
       match e with
       | RequestException _ msg =>
           print_json (error_object ("API request failed: " ++ msg)) ;;
           sys_exit 1
       | JSONDecodeError _ =>
           print_json (error_object "Failed to decode JSON response from API.") ;;
           sys_exit 1
       | _ => raise e
       end).

Definition script : M unit :=
  API_KEY <- config ;;
  main API_KEY.

End CheckVirusTotal.

(* ===================================================================== *)
(** * The enrichment aggregator *)
(* ===================================================================== *)

Module Enrichment.

Definition mapping := list (string * pyval).

(** Modelled from the spec: the [ProviderResult] record of the data
    model, [{provider, ok, data|null, error|null}]; no file of the
    sources declares it. *)
Record ProviderResult := {
  provider : string;
  ok : bool;
  data : option mapping;
  error : option string
}.

(** Modelled from the spec: [Credentials], provider name to API key. *)
Definition Credentials := string -> option string.

(** Modelled from the spec: an [EnrichmentProvider], known by its name
    and by what its one outbound request and normalisation give for a
    key and an IP: the flat mapping, or the message of a transport or
    decoding failure. *)
Record EnrichmentProvider := {
  name : string;
  fetch : string -> string -> string + mapping
}.

(** Modelled from the spec: [check(ip) -> ProviderResult] of section
    4.3.  An absent or empty key gives [ok:false] with
    "missing credentials"; a failed request gives [ok:false] with its
    message; nothing is raised. *)
Definition check (creds : Credentials) (p : EnrichmentProvider) (ip : string)
  : ProviderResult :=
  let failed msg :=
    {| provider := name p; ok := false; data := None; error := Some msg |} in
  match creds (name p) with
  | None => failed "missing credentials"
  | Some key =>
      if str_empty key then failed "missing credentials"
      else match fetch p key ip with
           | inr d => {| provider := name p; ok := true; data := Some d; error := None |}
           | inl msg => failed msg
           end
  end.

(** Modelled from the spec: [enrich(ip, providers) -> EnrichmentReport]
    of section 4.4: [check] on every configured provider, the results
    in configuration order. *)
Definition enrich (creds : Credentials) (ip : string)
           (providers : list EnrichmentProvider) : list ProviderResult :=
  map (fun p => check creds p ip) providers.

(** A provider fails on [ip] when it has no usable key or its request
    fails. *)
Definition fails (creds : Credentials) (ip : string) (p : EnrichmentProvider) : bool :=
  match creds (name p) with
  | None => true
  | Some key =>
      str_empty key || match fetch p key ip with inl _ => true | inr _ => false end
  end.

Definition count {A} (f : A -> bool) (xs : list A) : nat := length (filter f xs).

End Enrichment.

(* ===================================================================== *)
(** * Observations on traces, and the worlds of the scenarios *)
(* ===================================================================== *)

(** The child processes a run of the handler started. *)
Definition spawned (t : list App.event) : list (list string * bool) :=
  flat_map (fun e => match e with App.Spawn argv sh => [(argv, sh)] | _ => [] end) t.

(** What a run of a script wrote on standard output, line by line. *)
Definition stdout (t : list Script.event) : list pyval :=
  flat_map (fun e => match e with Script.Stdout v => [v] | _ => [] end) t.

(** The outbound requests of a run of a script. *)
Definition requested (t : list Script.event) : list Script.Request :=
  flat_map (fun e => match e with Script.HttpGet r => [r] | _ => [] end) t.

Definition missing_ip_response : App.Response :=
  App.jsonify [("error", PStr "Missing 'ip' in request body")] 400.

Definition loopback_response : App.Response :=
  App.jsonify [("message", PStr "Playbook successfully executed for IP: 127.0.0.1");
               ("report", PStr "There's no place like home. It's safe here.")] 200.

Definition not_found_response : App.Response :=
  App.jsonify [("error", PStr "ansible-playbook command not found.")] 500.

Definition failed_response (ip : string) (detail : pyval) : App.Response :=
  App.jsonify [("error", PStr ("Playbook execution failed for IP: " ++ ip));
               ("playbook_error", detail)] 500.

Definition success_response (ip report : string) : App.Response :=
  App.jsonify [("message", PStr ("Playbook successfully executed for IP: " ++ ip));
               ("report", PStr report)] 200.

(** The job exits 0 and leaves the report "OK". *)
Definition world_ok : App.World :=
  {| App.exec := fun _ => App.Ran 0 EmptyString;
     App.files := fun p => if String.eqb p "report.md" then Some (App.Text "OK") else None |}.

(** The job exits 1 after writing "boom" on its standard error. *)
Definition world_boom : App.World :=
  {| App.exec := fun _ => App.Ran 1 "boom";
     App.files := fun _ => None |}.

(** There is no ansible-playbook on the machine. *)
Definition world_no_ansible : App.World :=
  {| App.exec := fun _ => App.NoSuchFile;
     App.files := fun _ => None |}.

(** The job exits 0 and leaves no report. *)
Definition world_no_report : App.World :=
  {| App.exec := fun _ => App.Ran 0 EmptyString;
     App.files := fun _ => None |}.

(** The job exits 0 and leaves a report written with CR LF line ends. *)
Definition world_crlf_report : App.World :=
  {| App.exec := fun _ => App.Ran 0 EmptyString;
     App.files := fun p =>
       if String.eqb p "report.md"
       then Some (App.Text ("# Report" ++ String CR (String LF "clean" ++ String CR (String LF EmptyString))))
       else None |}.


Definition request_for (ip : string) : pyval := PDict [("ip", PStr ip)].

(** The API key as the interface describes it: of the first line that
    holds [needle], the second of the fields between colons, stripped of
    surrounding whitespace; empty when no line holds [needle]. *)
Definition spec_api_key (needle : string) (lines : list string) : string :=
  match find (str_contains needle) lines with
  | Some line => strip (nth 1 (str_split ":" line) EmptyString)
  | None => EmptyString
  end.

(** A run of a lookup script meets one of the failures its code handles:
    no secrets file, a blank key, no IP argument, a request that fails or
    is answered with a 4xx or 5xx status, a body that is not JSON. *)
Definition fault (needle : string) (request : string -> string -> Script.Request)
           (w : Script.World) : bool :=
  match Script.secrets w with
  | None => true
  | Some lines =>
      let key := spec_api_key needle lines in
      str_empty key
      || (length (Script.argv w) <? 2)%nat
      || match Script.network w (request key (nth 1 (Script.argv w) EmptyString)) with
         | Script.Unreachable _ => true
         | Script.Responded r =>
             ((400 <=? Script.status_code r) && (Script.status_code r <? 600))
             || match Script.payload r with
                | Script.Undecodable _ _ => true
                | Script.Decoded _ => false
                end
         end
  end.

(** The object under [key] of a JSON object: empty when the key is
    absent, none when the key holds something that is not an object. *)
Definition object_at (key : string) (items : list (string * pyval))
  : option (list (string * pyval)) :=
  match dict_get key items with
  | None => Some []
  | Some (PDict sub) => Some sub
  | Some _ => None
  end.

Definition or_default (default : pyval) (found : option pyval) : pyval :=
  match found with
  | Some x => x
  | None => default
  end.

(** A machine with both keys configured, asked about 8.8.8.8, where
    VirusTotal answers with an owner and one count. *)
Definition lookup_world : Script.World :=
  {| Script.secrets_path := "/srv/devops-soar/secrets.yml";
     Script.secrets := Some ["# provider keys"; "abuseipdb_key: abc123"; "virustotal_key:   vt9 "];
     Script.argv := ["check.py"; "8.8.8.8"];
     Script.network := fun _ =>
       Script.Responded
         {| Script.status_code := 200;
            Script.reason := "OK";
            Script.final_url := "https://www.virustotal.com/api/v3/ip_addresses/8.8.8.8";
            Script.payload :=
              Script.Decoded
                (PDict [("data",
                         PDict [("attributes",
                                 PDict [("as_owner", PStr "GOOGLE");
                                        ("last_analysis_stats",
                                         PDict [("malicious", PInt 2)])])])]) |} |}.

(** The same machine, the script started without an argument. *)
Definition lookup_world_no_argument : Script.World :=
  {| Script.secrets_path := Script.secrets_path lookup_world;
     Script.secrets := Script.secrets lookup_world;
     Script.argv := ["check.py"];
     Script.network := Script.network lookup_world |}.

(** The same machine without its secrets file. *)
Definition lookup_world_no_secrets : Script.World :=
  {| Script.secrets_path := Script.secrets_path lookup_world;
     Script.secrets := None;
     Script.argv := Script.argv lookup_world;
     Script.network := Script.network lookup_world |}.

(** What the caller of a child process learns without capturing its
    streams: that it could not be started, or its exit status. *)
Definition exit_status_of (o : App.proc_outcome) : option Z :=
  match o with
  | App.ExecNotFound => None
  | App.Exited rc _ => Some rc
  | App.EmbeddedNull => None
  end.

(** The job exits 1 and writes nothing. *)
Definition world_silent_failure : App.World :=
  {| App.exec := fun _ => App.Ran 1 EmptyString;
     App.files := fun _ => None |}.

(** The pauses of a run of a script, in seconds. *)
Definition slept (t : list Script.event) : list Z :=
  flat_map (fun e => match e with Script.Sleep n => [n] | _ => [] end) t.

(** The attributes of a VirusTotal report and what they hold under
    last_analysis_stats (an empty object when absent); none when the body,
    its data or its attributes is not an object. *)
Definition vt_report (v : pyval) : option (list (string * pyval) * pyval) :=
  match v with
  | PDict top =>
      match object_at "data" top with
      | Some data =>
          match object_at "attributes" data with
          | Some attrs =>
              Some (attrs, or_default (PDict []) (dict_get "last_analysis_stats" attrs))
          | None => None
          end
      | None => None
      end
  | _ => None
  end.

Definition is_object (v : pyval) : bool :=
  match v with
  | PDict _ => true
  | _ => false
  end.

(** A machine like [lookup_world] where the provider answers with a body
    of the given decoded value. *)
Definition lookup_world_answering (v : pyval) : Script.World :=
  {| Script.secrets_path := Script.secrets_path lookup_world;
     Script.secrets := Script.secrets lookup_world;
     Script.argv := Script.argv lookup_world;
     Script.network := fun _ =>
       Script.Responded
         {| Script.status_code := 200;
            Script.reason := "OK";
            Script.final_url := "https://provider.example/8.8.8.8";
            Script.payload := Script.Decoded v |} |}.

(** A machine like [lookup_world] with other lines in its secrets file
    and other arguments. *)
Definition lookup_world_with (lines args : list string) : Script.World :=
  {| Script.secrets_path := Script.secrets_path lookup_world;
     Script.secrets := Some lines;
     Script.argv := args;
     Script.network := Script.network lookup_world |}.

(* ===================================================================== *)
(** * The triage endpoint *)
(* ===================================================================== *)

(** Unfolding the operations of the monad in a goal. *)
Ltac eff_run :=
  cbn; unfold eff_catch, eff_bind, eff_ret, eff_raise, emit, ask, lift; cbn.

(** Unfolding the operations of a lookup script as well. *)
Ltac script_run :=
  unfold Script.requests_get, Script.raise_for_status, Script.response_json,
    Script.print_json, Script.sys_exit, Script.sleep in *;
  eff_run.

(** Closing one case of a run: the exit status and the output are in
    the goal as values. *)
Ltac outcome_case :=
  split; intros; try discriminate;
  repeat match goal with
         | |- _ /\ _ => split
         | |- exists _, _ => eexists
         end; reflexivity.

#[local] Arguments App.job : simpl never.

Section Triage.
Variable w : App.World.



Lemma job_of_null (args : list string) :
  existsb (has_char NUL) args = true -> App.job w args = App.EmbeddedNull.
Proof. intros H. unfold App.job. now rewrite H. Qed.

Lemma str_PStr (s : string) : str (PStr s) = s.
Proof. reflexivity. Qed.

Lemma eq_str_PStr (s t : string) : eq_str (PStr s) t = false <-> s <> t.
Proof. simpl. apply String.eqb_neq. Qed.

Lemma truthy_with_key (key : string) (items : list (string * pyval)) (v : pyval) :
  dict_get key items = Some v -> truthy (PDict items) = true.
Proof. destruct items; [discriminate | reflexivity]. Qed.

Lemma contains_with_key (key : string) (items : list (string * pyval)) (v : pyval) :
  dict_get key items = Some v -> contains key (PDict items) = inr true.
Proof. intros H. simpl. unfold dict_has. now rewrite H. Qed.

Lemma getitem_with_key (key : string) (items : list (string * pyval)) (v : pyval) :
  dict_get key items = Some v -> getitem (PDict items) key = inr v.
Proof. intros H. simpl. now rewrite H. Qed.

(** A request object that has an ip gets past validation: the handler
    goes on with the value of the key. *)
Lemma triage_ip_with_ip (items : list (string * pyval)) (v : pyval) :
  dict_get "ip" items = Some v ->
  App.triage_ip (PDict items) w =
  (if eq_str v "127.0.0.1" then ret loopback_response
   else
     catch
       (App.subprocess_run (App.command v)
          {| App.capture_output := false; App.shell := false;
             App.text := true; App.check := true |} ;;
        report_content <- App.read_text "report.md" ;;
        ret (success_response (str v) report_content))
       (fun e =>
          match e with
          | CalledProcessError _ _ stderr =>
              ret (failed_response (str v) (App.of_option stderr))
          | FileNotFoundError _ => ret not_found_response
          | _ => raise e
          end)) w.
Proof.
  intros H. unfold App.triage_ip.
  rewrite (truthy_with_key _ _ _ H), (contains_with_key _ _ _ H),
    (getitem_with_key _ _ _ H).
  cbn. destruct (eq_str v "127.0.0.1"); [reflexivity|].
  eff_run.
  destruct (App.job w _) as [|rc err|]; cbn; [reflexivity| |reflexivity].
  destruct (rc =? 0); cbn; [|reflexivity].
  destruct (App.files w _) as [[stored|[| |]]|]; reflexivity.
Qed.

Variable items : list (string * pyval).
Variable v : pyval.
Hypothesis has_ip : dict_get "ip" items = Some v.
Hypothesis not_loopback : eq_str v "127.0.0.1" = false.

(** The endpoint on a request with an ip other than the loopback
    address, case by case on what the machine does. *)
Lemma triage_not_found :
  App.job w (App.command v) = App.ExecNotFound ->
  App.triage_ip (PDict items) w =
  (Ok not_found_response, [App.Spawn (App.command v) false]).
Proof.
  intros Hjob. rewrite (triage_ip_with_ip _ _ has_ip), not_loopback.
  eff_run. rewrite Hjob. reflexivity.
Qed.

Lemma triage_job_failed (rc : Z) (err : string) :
  App.job w (App.command v) = App.Exited rc err ->
  rc <> 0 ->
  App.triage_ip (PDict items) w =
  (Ok (failed_response (str v) PNone), [App.Spawn (App.command v) false]).
Proof.
  intros Hjob Hrc. rewrite (triage_ip_with_ip _ _ has_ip), not_loopback.
  eff_run. rewrite Hjob. cbn.
  apply Z.eqb_neq in Hrc. rewrite Hrc. reflexivity.
Qed.

Lemma triage_report_missing (err : string) :
  App.job w (App.command v) = App.Exited 0 err ->
  App.files w "report.md" = None ->
  App.triage_ip (PDict items) w =
  (Ok not_found_response,
   [App.Spawn (App.command v) false; App.OpenRead "report.md"]).
Proof.
  intros Hjob Hfile. rewrite (triage_ip_with_ip _ _ has_ip), not_loopback.
  eff_run. rewrite Hjob. cbn. rewrite Hfile. reflexivity.
Qed.

Lemma triage_report_read (err stored : string) :
  App.job w (App.command v) = App.Exited 0 err ->
  App.files w "report.md" = Some (App.Text stored) ->
  App.triage_ip (PDict items) w =
  (Ok (success_response (str v) (universal_newlines stored)),
   [App.Spawn (App.command v) false; App.OpenRead "report.md"]).
Proof.
  intros Hjob Hfile. rewrite (triage_ip_with_ip _ _ has_ip), not_loopback.
  eff_run. rewrite Hjob. cbn. rewrite Hfile. reflexivity.
Qed.

Lemma triage_report_unreadable (err : string) (why : App.read_error) :
  App.job w (App.command v) = App.Exited 0 err ->
  App.files w "report.md" = Some (App.Unreadable why) ->
  App.triage_ip (PDict items) w =
  (Raised (App.read_exception "report.md" why),
   [App.Spawn (App.command v) false; App.OpenRead "report.md"]).
Proof.
  intros Hjob Hfile. rewrite (triage_ip_with_ip _ _ has_ip), not_loopback.
  eff_run. rewrite Hjob. cbn. rewrite Hfile. destruct why; reflexivity.
Qed.

Lemma triage_null_byte :
  App.job w (App.command v) = App.EmbeddedNull ->
  App.triage_ip (PDict items) w =
  (Raised (ValueError "embedded null byte"), [App.Spawn (App.command v) false]).
Proof.
  intros Hjob. rewrite (triage_ip_with_ip _ _ has_ip), not_loopback.
  eff_run. rewrite Hjob. reflexivity.
Qed.

(** Whatever the machine does, one child process is started, from the
    vector of [command], without a shell. *)
Lemma triage_spawns_command :
  spawned (snd (App.triage_ip (PDict items) w)) = [(App.command v, false)].
Proof.
  destruct (App.job w (App.command v)) as [|rc err|] eqn:Hjob.
  - now rewrite (triage_not_found Hjob).
  - destruct (Z.eq_dec rc 0) as [->|Hrc].
    + destruct (App.files w "report.md") as [[stored|why]|] eqn:Hfile.
      * now rewrite (triage_report_read _ _ Hjob Hfile).
      * now rewrite (triage_report_unreadable _ _ Hjob Hfile).
      * now rewrite (triage_report_missing _ Hjob Hfile).
    + now rewrite (triage_job_failed _ _ Hjob Hrc).
  - now rewrite (triage_null_byte Hjob).
Qed.

End Triage.

(** C1 (the code departs from it): on a request for 8.8.8.8 where the job
    exits 1 after writing "boom" on its standard error, the endpoint
    answers 500 with the error "Playbook execution failed for IP:
    8.8.8.8", and its playbook_error is null, not "boom": the job is run
    without capturing its standard error. *)
Theorem triage_boom_playbook_error_null :
  App.triage_ip (request_for "8.8.8.8") world_boom =
  (Ok (App.jsonify [("error", PStr "Playbook execution failed for IP: 8.8.8.8");
                    ("playbook_error", PNone)] 500),
   [App.Spawn ["ansible-playbook"; "ansible/playbook.yml"; "--extra-vars";
               "ip_to_check=8.8.8.8"] false]).
Proof. reflexivity. Qed.

(** C2: a request whose ip is "127.0.0.1" gets the fixed success response,
    whatever the machine is, and the handler starts no process and opens
    no file. *)
Theorem triage_loopback (w : App.World) (items : list (string * pyval)) :
  dict_get "ip" items = Some (PStr "127.0.0.1") ->
  App.triage_ip (PDict items) w =
  (Ok (App.jsonify
         [("message", PStr "Playbook successfully executed for IP: 127.0.0.1");
          ("report", PStr "There's no place like home. It's safe here.")] 200),
   []).
Proof.
  intros H. rewrite (triage_ip_with_ip _ _ _ H). reflexivity.
Qed.

Lemma triage_loopback_witness :
  App.triage_ip (PDict [("source", PStr "soc"); ("ip", PStr "127.0.0.1")]) world_boom =
  (Ok loopback_response, []).
Proof. apply (triage_loopback world_boom). reflexivity. Defined.

(** C3, the claim as stated fails: a request whose ip is the empty string
    is not answered with the validation failure; the playbook is run with
    "ip_to_check=" and the request succeeds. *)
Lemma triage_empty_ip_runs_playbook :
  App.triage_ip (request_for EmptyString) world_ok =
  (Ok (App.jsonify [("message", PStr "Playbook successfully executed for IP: ");
                    ("report", PStr "OK")] 200),
   [App.Spawn ["ansible-playbook"; "ansible/playbook.yml"; "--extra-vars";
               "ip_to_check="] false;
    App.OpenRead "report.md"])
  /\ fst (App.triage_ip (request_for EmptyString) world_ok) <> Ok missing_ip_response.
Proof. split; [reflexivity | discriminate]. Qed.

(** C3, amended: a request in which the ip field is missing, that is a
    JSON object without the key ip, is answered 400 with "Missing 'ip' in
    request body" and nothing is run; a request whose ip is the empty
    string passes validation, and the playbook is started with the
    argument "ip_to_check=". *)
Theorem triage_validation (w : App.World) :
  (forall items : list (string * pyval),
     dict_get "ip" items = None ->
     App.triage_ip (PDict items) w =
     (Ok (App.jsonify [("error", PStr "Missing 'ip' in request body")] 400), []))
  /\ (forall items : list (string * pyval),
     dict_get "ip" items = Some (PStr EmptyString) ->
     spawned (snd (App.triage_ip (PDict items) w)) =
     [(["ansible-playbook"; "ansible/playbook.yml"; "--extra-vars"; "ip_to_check="],
       false)]).
Proof.
  split.
  - intros items H. unfold App.triage_ip.
    destruct items as [|kv items']; [reflexivity|].
    change (truthy (PDict (kv :: items'))) with true.
    cbn [negb contains]. unfold dict_has. rewrite H. reflexivity.
  - intros items H.
    apply (triage_spawns_command w items (PStr EmptyString) H). reflexivity.
Qed.

Lemma triage_validation_witness :
  App.triage_ip (PDict [("address", PStr "8.8.8.8")]) world_ok =
  (Ok missing_ip_response, [])
  /\ spawned (snd (App.triage_ip (request_for EmptyString) world_ok)) =
     [(["ansible-playbook"; "ansible/playbook.yml"; "--extra-vars"; "ip_to_check="],
       false)].
Proof.
  split.
  - apply (proj1 (triage_validation world_ok)). reflexivity.
  - apply (proj2 (triage_validation world_ok)). reflexivity.
Defined.

(** C6: for a request whose ip is not the loopback address, the handler
    starts exactly one process, from the four-element vector
    ansible-playbook, ansible/playbook.yml, --extra-vars, ip_to_check=<ip>,
    and not through a shell; the ip, whatever characters it holds, is
    inside the one last element.  (An ip that is not a string is rendered
    by [str].) *)
Theorem triage_argv (w : App.World) (items : list (string * pyval)) (ip : string) :
  dict_get "ip" items = Some (PStr ip) ->
  ip <> "127.0.0.1" ->
  spawned (snd (App.triage_ip (PDict items) w)) =
  [(["ansible-playbook"; "ansible/playbook.yml"; "--extra-vars"; "ip_to_check=" ++ ip],
    false)].
Proof.
  intros H Hne.
  apply (triage_spawns_command w items (PStr ip) H).
  now apply eq_str_PStr.
Qed.

Lemma triage_argv_witness :
  spawned (snd (App.triage_ip (request_for "8.8.8.8; rm -rf /") world_ok)) =
  [(["ansible-playbook"; "ansible/playbook.yml"; "--extra-vars";
     "ip_to_check=8.8.8.8; rm -rf /"], false)].
Proof.
  apply (triage_argv world_ok [("ip", PStr "8.8.8.8; rm -rf /")] "8.8.8.8; rm -rf /").
  - reflexivity.
  - discriminate.
Defined.




(** C10: for a request whose ip is not the loopback address, when the job
    exits 0 and there is no report.md, the endpoint answers 500 with
    "ansible-playbook command not found.", the very response it gives on
    a machine where the executable is missing. *)
Theorem triage_missing_report_as_missing_executable
        (w w' : App.World) (items : list (string * pyval)) (ip err : string) :
  dict_get "ip" items = Some (PStr ip) ->
  ip <> "127.0.0.1" ->
  App.job w ["ansible-playbook"; "ansible/playbook.yml"; "--extra-vars";
             "ip_to_check=" ++ ip] = App.Exited 0 err ->
  App.files w "report.md" = None ->
  App.job w' ["ansible-playbook"; "ansible/playbook.yml"; "--extra-vars";
              "ip_to_check=" ++ ip] = App.ExecNotFound ->
  fst (App.triage_ip (PDict items) w) =
  Ok (App.jsonify [("error", PStr "ansible-playbook command not found.")] 500)
  /\ fst (App.triage_ip (PDict items) w) = fst (App.triage_ip (PDict items) w').
Proof.
  intros H Hne Hjob Hfile Hjob'.
  assert (Hlo : eq_str (PStr ip) "127.0.0.1" = false) by now apply eq_str_PStr.
  rewrite (triage_report_missing w items (PStr ip) H Hlo err Hjob Hfile).
  rewrite (triage_not_found w' items (PStr ip) H Hlo Hjob').
  split; reflexivity.
Qed.

Lemma triage_missing_report_as_missing_executable_witness :
  fst (App.triage_ip (request_for "8.8.8.8") world_no_report) = Ok not_found_response
  /\ fst (App.triage_ip (request_for "8.8.8.8") world_no_report) =
     fst (App.triage_ip (request_for "8.8.8.8") world_no_ansible).
Proof.
  apply (triage_missing_report_as_missing_executable
           world_no_report world_no_ansible [("ip", PStr "8.8.8.8")] "8.8.8.8" EmptyString).
  - reflexivity.
  - discriminate.
  - reflexivity.
  - reflexivity.
  - reflexivity.
Defined.

(* ===================================================================== *)
(** * Strings: what the key parsing relies on *)
(* ===================================================================== *)

Section Strings.

Lemma prefix_has_char (c : ascii) (needle s : string) :
  String.prefix needle s = true -> has_char c needle = true -> has_char c s = true.
Proof.
  revert s. induction needle as [|a needle IH]; intros s Hp Hc; [discriminate|].
  destruct s as [|b s]; [discriminate|].
  simpl in Hp. destruct (ascii_dec a b) as [<-|]; [|discriminate].
  simpl in *. destruct (Ascii.eqb c a); [reflexivity|]. now apply IH.
Qed.

Lemma str_contains_has_char (c : ascii) (needle s : string) :
  str_contains needle s = true -> has_char c needle = true -> has_char c s = true.
Proof.
  induction s as [|b s IH]; intros Hs Hc; cbn [str_contains] in Hs;
    apply orb_true_iff in Hs as [Hp|Hs].
  - exact (prefix_has_char _ _ _ Hp Hc).
  - discriminate.
  - exact (prefix_has_char _ _ _ Hp Hc).
  - simpl. rewrite (IH Hs Hc). apply orb_true_r.
Qed.

Lemma str_split_nonempty (sep : ascii) (s : string) : str_split sep s <> [].
Proof.
  destruct s as [|c s]; simpl; [discriminate|].
  destruct (Ascii.eqb c sep); [discriminate|].
  destruct (str_split sep s); discriminate.
Qed.

(** A string that holds the separator splits into two fields at least,
    so that subscript 1 is in range. *)
Lemma str_split_second (sep : ascii) (s : string) :
  has_char sep s = true ->
  index (str_split sep s) 1 = inr (nth 1 (str_split sep s) EmptyString).
Proof.
  induction s as [|c s IH]; intros H; [discriminate|].
  simpl in H. simpl str_split. rewrite Ascii.eqb_sym in H.
  destruct (Ascii.eqb c sep).
  - pose proof (str_split_nonempty sep s).
    destruct (str_split sep s); [contradiction | reflexivity].
  - simpl in H. specialize (IH H).
    destruct (str_split sep s) as [|f0 [|f1 fields]]; [discriminate.. | reflexivity].
Qed.

(** A field without the separator is the whole string. *)
Lemma str_split_whole (sep : ascii) (s : string) :
  has_char sep s = false -> str_split sep s = [s].
Proof.
  induction s as [|c s IH]; intros H; [reflexivity|].
  simpl in H. rewrite Ascii.eqb_sym in H.
  apply orb_false_iff in H as [Hc Hs].
  simpl. rewrite Hc, (IH Hs). reflexivity.
Qed.

End Strings.

(* ===================================================================== *)
(** * The lookup scripts: loading the key *)
(* ===================================================================== *)

(** The loop of [check_abuseipdb.py] computes the key of the interface. *)
Lemma abuseipdb_scan_spec (lines : list string) :
  CheckAbuseIPDB.scan lines EmptyString = inr (spec_api_key "abuseipdb_key:" lines).
Proof.
  unfold spec_api_key.
  induction lines as [|line lines IH]; [reflexivity|].
  cbn [CheckAbuseIPDB.scan find].
  destruct (str_contains "abuseipdb_key:" line) eqn:Hin; [|exact IH].
  rewrite str_split_second; [reflexivity|].
  now apply (str_contains_has_char _ _ _ Hin).
Qed.

(** The loop of [check_virustotal.py] computes the key of the interface. *)
Lemma virustotal_scan_spec (lines : list string) :
  CheckVirusTotal.scan lines EmptyString = inr (spec_api_key "virustotal_key:" lines).
Proof.
  unfold spec_api_key.
  induction lines as [|line lines IH]; [reflexivity|].
  cbn [CheckVirusTotal.scan find].
  destruct (str_contains "virustotal_key:" line) eqn:Hin; [|exact IH].
  rewrite str_split_second; [reflexivity|].
  now apply (str_contains_has_char _ _ _ Hin).
Qed.

(** What the configuration block of [check_abuseipdb.py] does. *)
Lemma abuseipdb_config (w : Script.World) :
  CheckAbuseIPDB.config w =
  match Script.secrets w with
  | None =>
      (Raised (SystemExit 1),
       [Script.OpenRead (Script.secrets_path w);
        Script.Stdout (Script.error_object
          ("Secrets file not found. Looked at: " ++ Script.secrets_path w))])
  | Some lines =>
      if str_empty (spec_api_key "abuseipdb_key:" lines)
      then (Raised (SystemExit 1),
            [Script.OpenRead (Script.secrets_path w);
             Script.Stdout (Script.error_object
               "AbuseIPDB API key not found or is empty in secrets.yml")])
      else (Ok (spec_api_key "abuseipdb_key:" lines),
            [Script.OpenRead (Script.secrets_path w)])
  end.
Proof.
  unfold CheckAbuseIPDB.config, Script.open_lines. eff_run.
  destruct (Script.secrets w) as [lines|]; cbn; [|reflexivity].
  rewrite abuseipdb_scan_spec. cbn.
  destruct (str_empty (spec_api_key "abuseipdb_key:" lines)); reflexivity.
Qed.

(** What the configuration block of [check_virustotal.py] does. *)
Lemma virustotal_config (w : Script.World) :
  CheckVirusTotal.config w =
  match Script.secrets w with
  | None =>
      (Raised (SystemExit 1),
       [Script.OpenRead (Script.secrets_path w);
        Script.Stdout (Script.error_object
          ("Secrets file not found at " ++ Script.secrets_path w))])
  | Some lines =>
      if str_empty (spec_api_key "virustotal_key:" lines)
      then (Raised (SystemExit 1),
            [Script.OpenRead (Script.secrets_path w);
             Script.Stdout (Script.error_object
               "VirusTotal API key not found or is empty in secrets.yml")])
      else (Ok (spec_api_key "virustotal_key:" lines),
            [Script.OpenRead (Script.secrets_path w)])
  end.
Proof.
  unfold CheckVirusTotal.config, Script.open_lines. eff_run.
  destruct (Script.secrets w) as [lines|]; cbn; [|reflexivity].
  rewrite virustotal_scan_spec. cbn.
  destruct (str_empty (spec_api_key "virustotal_key:" lines)); reflexivity.
Qed.

(* ===================================================================== *)
(** * The lookup scripts: a whole run *)
(* ===================================================================== *)

Lemma abuseipdb_script_unfold (w : Script.World) :
  CheckAbuseIPDB.script w =
  match CheckAbuseIPDB.config w with
  | (Ok API_KEY, t1) => let (r, t2) := CheckAbuseIPDB.main API_KEY w in (r, (t1 ++ t2)%list)
  | (Raised e, t1) => (Raised e, t1)
  end.
Proof. reflexivity. Qed.

Lemma virustotal_script_unfold (w : Script.World) :
  CheckVirusTotal.script w =
  match CheckVirusTotal.config w with
  | (Ok API_KEY, t1) => let (r, t2) := CheckVirusTotal.main API_KEY w in (r, (t1 ++ t2)%list)
  | (Raised e, t1) => (Raised e, t1)
  end.
Proof. reflexivity. Qed.

(** The outcomes of [check_abuseipdb.py]: on a fault, status 1 and one
    error object; status 0 only without a fault, with one value printed. *)
Lemma abuseipdb_outcomes (w : Script.World) :
  (fault "abuseipdb_key:" CheckAbuseIPDB.request w = true ->
   exists msg,
     fst (Script.run CheckAbuseIPDB.script w) = 1
     /\ stdout (snd (Script.run CheckAbuseIPDB.script w)) = [Script.error_object msg])
  /\ (fst (Script.run CheckAbuseIPDB.script w) = 0 ->
      fault "abuseipdb_key:" CheckAbuseIPDB.request w = false
      /\ exists v, stdout (snd (Script.run CheckAbuseIPDB.script w)) = [v]).
Proof.
  unfold fault, Script.run. rewrite abuseipdb_script_unfold, abuseipdb_config.
  destruct (Script.secrets w) as [lines|]; [|outcome_case].
  destruct (str_empty (spec_api_key "abuseipdb_key:" lines)); [outcome_case|].
  unfold CheckAbuseIPDB.main. script_run.
  destruct (Script.argv w) as [|prog [|ip rest]]; script_run; [outcome_case..|].
  destruct (Script.network w _) as [msg|r]; script_run; [outcome_case|].
  destruct ((400 <=? Script.status_code r) && (Script.status_code r <? 600));
    script_run; [outcome_case|].
  destruct (Script.payload r) as [v|[|] msg]; script_run; [|outcome_case..].
  destruct v; script_run; try outcome_case.
  destruct (dict_get "data" items); outcome_case.
Qed.

(** The outcomes of [check_virustotal.py], likewise. *)
Lemma virustotal_outcomes (w : Script.World) :
  (fault "virustotal_key:" CheckVirusTotal.request w = true ->
   exists msg,
     fst (Script.run CheckVirusTotal.script w) = 1
     /\ stdout (snd (Script.run CheckVirusTotal.script w)) = [Script.error_object msg])
  /\ (fst (Script.run CheckVirusTotal.script w) = 0 ->
      fault "virustotal_key:" CheckVirusTotal.request w = false
      /\ exists v, stdout (snd (Script.run CheckVirusTotal.script w)) = [v]).
Proof.
  unfold fault, Script.run. rewrite virustotal_script_unfold, virustotal_config.
  destruct (Script.secrets w) as [lines|]; [|outcome_case].
  destruct (str_empty (spec_api_key "virustotal_key:" lines)); [outcome_case|].
  unfold CheckVirusTotal.main. script_run.
  destruct (Script.argv w) as [|prog [|ip rest]]; script_run; [outcome_case..|].
  destruct (Script.network w _) as [msg|r]; script_run; [outcome_case|].
  destruct ((400 <=? Script.status_code r) && (Script.status_code r <? 600));
    script_run; [outcome_case|].
  destruct (Script.payload r) as [v|[|] msg]; script_run; [|outcome_case..].
  repeat (script_run;
          match goal with
          | |- context [get ?x _ _] => is_var x; destruct x
          | |- context [match dict_get ?k ?d with _ => _ end] =>
              destruct (dict_get k d) as [?|]
          end);
    outcome_case.
Qed.

(** C4, the claim as stated fails: started without an IP argument,
    [check_abuseipdb.py] prints its error object and exits with status 1,
    not 0. *)
Lemma abuseipdb_no_argument_exits_1 :
  Script.run CheckAbuseIPDB.script lookup_world_no_argument =
  (1, [Script.OpenRead "/srv/devops-soar/secrets.yml";
       Script.Stdout (PDict [("error", PStr "No IP address provided.")])])
  /\ fst (Script.run CheckAbuseIPDB.script lookup_world_no_argument) <> 0.
Proof. split; [reflexivity | discriminate]. Qed.

(** C4, amended: in each lookup script, every failure the code handles
    (no secrets file, a blank key, no IP argument, a failed request or a
    4xx or 5xx status, a body that is not JSON) ends the run with exit
    status 1 after exactly one JSON object, of the one key "error", on
    standard output; a run exits with status 0 only when none of them
    occurred, and has then printed exactly one JSON value. *)
Theorem lookup_scripts_exit_status (w : Script.World) :
  ((fault "abuseipdb_key:" CheckAbuseIPDB.request w = true ->
    exists msg,
      fst (Script.run CheckAbuseIPDB.script w) = 1
      /\ stdout (snd (Script.run CheckAbuseIPDB.script w)) = [PDict [("error", PStr msg)]])
   /\ (fst (Script.run CheckAbuseIPDB.script w) = 0 ->
       fault "abuseipdb_key:" CheckAbuseIPDB.request w = false
       /\ exists v, stdout (snd (Script.run CheckAbuseIPDB.script w)) = [v]))
  /\
  ((fault "virustotal_key:" CheckVirusTotal.request w = true ->
    exists msg,
      fst (Script.run CheckVirusTotal.script w) = 1
      /\ stdout (snd (Script.run CheckVirusTotal.script w)) = [PDict [("error", PStr msg)]])
   /\ (fst (Script.run CheckVirusTotal.script w) = 0 ->
       fault "virustotal_key:" CheckVirusTotal.request w = false
       /\ exists v, stdout (snd (Script.run CheckVirusTotal.script w)) = [v])).
Proof.
  split; [apply abuseipdb_outcomes | apply virustotal_outcomes].
Qed.

Lemma lookup_scripts_exit_status_witness :
  (exists msg,
     fst (Script.run CheckAbuseIPDB.script lookup_world_no_secrets) = 1
     /\ stdout (snd (Script.run CheckAbuseIPDB.script lookup_world_no_secrets)) =
        [PDict [("error", PStr msg)]])
  /\ (fault "virustotal_key:" CheckVirusTotal.request lookup_world = false
      /\ exists v, stdout (snd (Script.run CheckVirusTotal.script lookup_world)) = [v]).
Proof.
  split.
  - apply (proj1 (proj1 (lookup_scripts_exit_status lookup_world_no_secrets))).
    reflexivity.
  - apply (proj2 (proj2 (lookup_scripts_exit_status lookup_world))).
    reflexivity.
Defined.

(** [d.get(key, default)] on an object. *)
Lemma get_or_default (items : list (string * pyval)) (key : string) (default : pyval) :
  get (PDict items) key default = inr (or_default default (dict_get key items)).
Proof. simpl. now destruct (dict_get key items). Qed.

Lemma get_object (items : list (string * pyval)) (key : string)
      (sub : list (string * pyval)) :
  object_at key items = Some sub ->
  get (PDict items) key (PDict []) = inr (PDict sub).
Proof.
  unfold object_at. simpl.
  destruct (dict_get key items) as [[]|]; intros H; try discriminate;
    now injection H as ->.
Qed.

#[local] Arguments get : simpl never.

(** C7: when the lookup succeeds and the decoded body is an object whose
    data, attributes and last_analysis_stats, where present, are objects,
    [check_virustotal.py] prints one object with exactly the keys
    as_owner, harmless, malicious, suspicious, undetected, in that order:
    as_owner is the one of the attributes, "N/A" when absent, and each
    count is the one of last_analysis_stats, 0 when absent.  The run
    exits with status 0. *)
Theorem virustotal_normalises
        (w : Script.World) (lines : list string) (prog ip : string) (rest : list string)
        (r : Script.HttpResponse) (top data attrs stats : list (string * pyval)) :
  Script.secrets w = Some lines ->
  str_empty (spec_api_key "virustotal_key:" lines) = false ->
  Script.argv w = prog :: ip :: rest ->
  Script.network w (CheckVirusTotal.request (spec_api_key "virustotal_key:" lines) ip)
    = Script.Responded r ->
  ~ (400 <= Script.status_code r < 600) ->
  Script.payload r = Script.Decoded (PDict top) ->
  object_at "data" top = Some data ->
  object_at "attributes" data = Some attrs ->
  object_at "last_analysis_stats" attrs = Some stats ->
  fst (Script.run CheckVirusTotal.script w) = 0
  /\ stdout (snd (Script.run CheckVirusTotal.script w)) =
     [PDict [("as_owner", or_default (PStr "N/A") (dict_get "as_owner" attrs));
             ("harmless", or_default (PInt 0) (dict_get "harmless" stats));
             ("malicious", or_default (PInt 0) (dict_get "malicious" stats));
             ("suspicious", or_default (PInt 0) (dict_get "suspicious" stats));
             ("undetected", or_default (PInt 0) (dict_get "undetected" stats))]].
Proof.
  intros Hsec Hkey Hargv Hnet Hstatus Hbody Hdata Hattrs Hstats.
  assert (Hok : (400 <=? Script.status_code r) && (Script.status_code r <? 600) = false).
  { apply andb_false_iff.
    destruct (Z.leb_spec 400 (Script.status_code r)); [right | now left].
    apply Z.ltb_ge. lia. }
  unfold Script.run. rewrite virustotal_script_unfold, virustotal_config, Hsec, Hkey.
  unfold CheckVirusTotal.main. script_run.
  rewrite Hargv. script_run. rewrite Hnet. script_run.
  rewrite Hok. script_run. rewrite Hbody. script_run.
  rewrite (get_object _ _ _ Hdata). script_run.
  rewrite (get_object _ _ _ Hattrs). script_run.
  rewrite (get_object _ _ _ Hstats). script_run.
  rewrite !get_or_default. script_run.
  split; reflexivity.
Qed.

Lemma virustotal_normalises_witness :
  fst (Script.run CheckVirusTotal.script lookup_world) = 0
  /\ stdout (snd (Script.run CheckVirusTotal.script lookup_world)) =
     [PDict [("as_owner", PStr "GOOGLE");
             ("harmless", PInt 0);
             ("malicious", PInt 2);
             ("suspicious", PInt 0);
             ("undetected", PInt 0)]].
Proof.
  apply (virustotal_normalises lookup_world
           ["# provider keys"; "abuseipdb_key: abc123"; "virustotal_key:   vt9 "]
           "check.py" "8.8.8.8" []
           {| Script.status_code := 200;
              Script.reason := "OK";
              Script.final_url := "https://www.virustotal.com/api/v3/ip_addresses/8.8.8.8";
              Script.payload :=
                Script.Decoded
                  (PDict [("data",
                           PDict [("attributes",
                                   PDict [("as_owner", PStr "GOOGLE");
                                          ("last_analysis_stats",
                                           PDict [("malicious", PInt 2)])])])]) |}
           [("data", PDict [("attributes",
                             PDict [("as_owner", PStr "GOOGLE");
                                    ("last_analysis_stats", PDict [("malicious", PInt 2)])])])]
           [("attributes", PDict [("as_owner", PStr "GOOGLE");
                                  ("last_analysis_stats", PDict [("malicious", PInt 2)])])]
           [("as_owner", PStr "GOOGLE"); ("last_analysis_stats", PDict [("malicious", PInt 2)])]
           [("malicious", PInt 2)]).
  - reflexivity.
  - reflexivity.
  - reflexivity.
  - reflexivity.
  - simpl. lia.
  - reflexivity.
  - reflexivity.
  - reflexivity.
  - reflexivity.
Defined.

(* ===================================================================== *)
(** * The lookup scripts: credentials *)
(* ===================================================================== *)

(** On a first matching line of the documented shape, needle then value,
    the value holding no colon, the key is the value without its
    surrounding whitespace. *)
Lemma spec_api_key_abuseipdb_line (value : string) (lines : list string) :
  has_char ":" value = false ->
  spec_api_key "abuseipdb_key:" (("abuseipdb_key:" ++ value) :: lines) = strip value.
Proof.
  intros H. unfold spec_api_key.
  assert (Hin : str_contains "abuseipdb_key:" ("abuseipdb_key:" ++ value) = true)
    by (destruct value; reflexivity).
  cbn [find]. rewrite Hin.
  simpl str_split. rewrite (str_split_whole _ _ H). reflexivity.
Qed.

Lemma spec_api_key_virustotal_line (value : string) (lines : list string) :
  has_char ":" value = false ->
  spec_api_key "virustotal_key:" (("virustotal_key:" ++ value) :: lines) = strip value.
Proof.
  intros H. unfold spec_api_key.
  assert (Hin : str_contains "virustotal_key:" ("virustotal_key:" ++ value) = true)
    by (destruct value; reflexivity).
  cbn [find]. rewrite Hin.
  simpl str_split. rewrite (str_split_whole _ _ H). reflexivity.
Qed.

(** C9: in each lookup script, when the secrets file is absent, or the
    key it yields is blank, the run opens the file, prints one error
    object on standard output and exits with status 1, and no request is
    sent; otherwise the configuration block leaves as API key the second
    colon-separated field, stripped of whitespace, of the first line that
    holds the provider's key name. *)
Theorem api_key_loading (w : Script.World) :
  match Script.secrets w with
  | None =>
      Script.run CheckAbuseIPDB.script w =
      (1, [Script.OpenRead (Script.secrets_path w);
           Script.Stdout (PDict [("error", PStr ("Secrets file not found. Looked at: "
                                                  ++ Script.secrets_path w))])])
      /\ Script.run CheckVirusTotal.script w =
         (1, [Script.OpenRead (Script.secrets_path w);
              Script.Stdout (PDict [("error", PStr ("Secrets file not found at "
                                                     ++ Script.secrets_path w))])])
  | Some lines =>
      (if str_empty (spec_api_key "abuseipdb_key:" lines)
       then Script.run CheckAbuseIPDB.script w =
            (1, [Script.OpenRead (Script.secrets_path w);
                 Script.Stdout (PDict [("error",
                   PStr "AbuseIPDB API key not found or is empty in secrets.yml")])])
       else CheckAbuseIPDB.config w =
            (Ok (spec_api_key "abuseipdb_key:" lines),
             [Script.OpenRead (Script.secrets_path w)]))
      /\
      (if str_empty (spec_api_key "virustotal_key:" lines)
       then Script.run CheckVirusTotal.script w =
            (1, [Script.OpenRead (Script.secrets_path w);
                 Script.Stdout (PDict [("error",
                   PStr "VirusTotal API key not found or is empty in secrets.yml")])])
       else CheckVirusTotal.config w =
            (Ok (spec_api_key "virustotal_key:" lines),
             [Script.OpenRead (Script.secrets_path w)]))
  end.
Proof.
  unfold Script.run.
  rewrite abuseipdb_script_unfold, virustotal_script_unfold,
    abuseipdb_config, virustotal_config.
  destruct (Script.secrets w) as [lines|]; [|split; reflexivity].
  split.
  - destruct (str_empty (spec_api_key "abuseipdb_key:" lines)); reflexivity.
  - destruct (str_empty (spec_api_key "virustotal_key:" lines)); reflexivity.
Qed.

(** The key of each provider on the machine of the scenarios. *)
Example api_keys_of_lookup_world :
  CheckAbuseIPDB.config lookup_world =
    (Ok "abc123", [Script.OpenRead "/srv/devops-soar/secrets.yml"])
  /\ CheckVirusTotal.config lookup_world =
    (Ok "vt9", [Script.OpenRead "/srv/devops-soar/secrets.yml"]).
Proof. split; reflexivity. Qed.

(** A body that decodes but has null where the report should be: the
    chained [get] raises, nothing is printed. *)
Example virustotal_null_data :
  CheckVirusTotal.main "vt9"
    {| Script.secrets_path := Script.secrets_path lookup_world;
       Script.secrets := Script.secrets lookup_world;
       Script.argv := Script.argv lookup_world;
       Script.network := fun _ =>
         Script.Responded
           {| Script.status_code := 200;
              Script.reason := "OK";
              Script.final_url := "https://www.virustotal.com/api/v3/ip_addresses/8.8.8.8";
              Script.payload := Script.Decoded (PDict [("data", PNone)]) |} |} =
  (Raised AttributeError,
   [Script.HttpGet (CheckVirusTotal.request "vt9" "8.8.8.8")]).
Proof. reflexivity. Qed.

(* ===================================================================== *)
(** * The enrichment aggregator *)
(* ===================================================================== *)

Section Aggregation.
Import Enrichment.
Variable creds : Credentials.
Variable ip : string.

Lemma check_ok (p : EnrichmentProvider) :
  ok (check creds p ip) = negb (fails creds ip p).
Proof.
  unfold check, fails.
  destruct (creds (name p)) as [key|]; [|reflexivity].
  destruct (str_empty key); [reflexivity|].
  destruct (fetch p key ip); reflexivity.
Qed.

Lemma check_provider (p : EnrichmentProvider) :
  provider (check creds p ip) = name p.
Proof.
  unfold check.
  destruct (creds (name p)) as [key|]; [|reflexivity].
  destruct (str_empty key); [reflexivity|].
  destruct (fetch p key ip); reflexivity.
Qed.

Lemma count_not_ok (providers : list EnrichmentProvider) :
  count (fun r => negb (ok r)) (enrich creds ip providers)
  = count (fails creds ip) providers.
Proof.
  unfold count, enrich.
  induction providers as [|p providers IH]; [reflexivity|].
  cbn [map filter]. rewrite check_ok, negb_involutive.
  destruct (fails creds ip p); cbn [length]; now rewrite IH.
Qed.

Lemma count_split {A} (f : A -> bool) (xs : list A) :
  (count f xs + count (fun x => negb (f x)) xs = length xs)%nat.
Proof.
  unfold count. induction xs as [|x xs IH]; [reflexivity|].
  cbn [filter]. destruct (f x); cbn [negb length]; lia.
Qed.

End Aggregation.

(** C5: over the aggregator as the specification describes it, for n
    configured providers of which k fail on the IP, the report of
    [enrich] has n entries, one per provider in configuration order, k
    of them with ok false and n - k with ok true; [enrich] is a total
    function into reports, with no failure of its own. *)
Theorem enrich_report (creds : Enrichment.Credentials) (ip : string)
        (providers : list Enrichment.EnrichmentProvider) :
  let n := length providers in
  let k := Enrichment.count (Enrichment.fails creds ip) providers in
  let report := Enrichment.enrich creds ip providers in
  length report = n
  /\ map Enrichment.provider report = map Enrichment.name providers
  /\ Enrichment.count (fun r => negb (Enrichment.ok r)) report = k
  /\ Enrichment.count Enrichment.ok report = (n - k)%nat.
Proof.
  cbv zeta.
  pose proof (count_not_ok creds ip providers) as Hk.
  pose proof (count_split Enrichment.ok (Enrichment.enrich creds ip providers)) as Hsplit.
  assert (Hlen : length (Enrichment.enrich creds ip providers) = length providers)
    by apply length_map.
  repeat split.
  - exact Hlen.
  - unfold Enrichment.enrich. rewrite map_map.
    apply map_ext. intros p. apply check_provider.
  - exact Hk.
  - lia.
Qed.

(** Two providers, the second without a key: two entries, in order, the
    first ok, the second not. *)
Example enrich_one_of_two_fails :
  Enrichment.enrich
    (fun p => if String.eqb p "abuseipdb" then Some "abc123" else None)
    "8.8.8.8"
    [ {| Enrichment.name := "abuseipdb";
         Enrichment.fetch := fun _ _ => inr [("abuseConfidenceScore", PInt 0)] |};
      {| Enrichment.name := "virustotal";
         Enrichment.fetch := fun _ _ => inr [("malicious", PInt 0)] |} ]
  = [ {| Enrichment.provider := "abuseipdb"; Enrichment.ok := true;
         Enrichment.data := Some [("abuseConfidenceScore", PInt 0)];
         Enrichment.error := None |};
      {| Enrichment.provider := "virustotal"; Enrichment.ok := false;
         Enrichment.data := None;
         Enrichment.error := Some "missing credentials" |} ].
Proof. reflexivity. Qed.

(* ===================================================================== *)
(** * The triage endpoint: the rest of its behaviour *)
(* ===================================================================== *)

(** A request object without the key is answered like no request. *)
Lemma triage_ip_without_ip (w : App.World) (items : list (string * pyval)) :
  dict_get "ip" items = None ->
  App.triage_ip (PDict items) w = (Ok missing_ip_response, []).
Proof.
  intros H. unfold App.triage_ip.
  destruct items as [|kv items']; [reflexivity|].
  change (truthy (PDict (kv :: items'))) with true.
  cbn [negb contains]. unfold dict_has. rewrite H. reflexivity.
Qed.

(** Text without a CR is read as it is stored. *)
Lemma universal_newlines_plain (stored : string) :
  has_char CR stored = false -> universal_newlines stored = stored.
Proof.
  induction stored as [|c rest IH]; intros H; [reflexivity|].
  cbn [has_char] in H. rewrite Ascii.eqb_sym in H.
  apply orb_false_iff in H as [Hc Hrest].
  cbn [universal_newlines]. rewrite Hc, (IH Hrest). reflexivity.
Qed.

(** X1: when the job exits 0 and report.md is a text file, the endpoint
    answers 200 with the message for that ip and, as report, the text of
    the file as Python's text mode reads it: CR LF and a CR alone are
    turned into LF, so that a file without CR comes back as it is
    stored.  The handler has started the job and then opened the file. *)
Theorem triage_success
        (w : App.World) (items : list (string * pyval)) (ip err stored : string) :
  dict_get "ip" items = Some (PStr ip) ->
  ip <> "127.0.0.1" ->
  App.job w ["ansible-playbook"; "ansible/playbook.yml"; "--extra-vars";
             "ip_to_check=" ++ ip] = App.Exited 0 err ->
  App.files w "report.md" = Some (App.Text stored) ->
  App.triage_ip (PDict items) w =
  (Ok (App.jsonify [("message", PStr ("Playbook successfully executed for IP: " ++ ip));
                    ("report", PStr (universal_newlines stored))] 200),
   [App.Spawn ["ansible-playbook"; "ansible/playbook.yml"; "--extra-vars";
               "ip_to_check=" ++ ip] false;
    App.OpenRead "report.md"])
  /\ (has_char CR stored = false -> universal_newlines stored = stored).
Proof.
  intros H Hne Hjob Hfile.
  assert (Hlo : eq_str (PStr ip) "127.0.0.1" = false) by now apply eq_str_PStr.
  split.
  - exact (triage_report_read w items (PStr ip) H Hlo err stored Hjob Hfile).
  - apply universal_newlines_plain.
Qed.

Lemma triage_success_witness :
  App.triage_ip (request_for "8.8.8.8") world_crlf_report =
  (Ok (App.jsonify [("message", PStr "Playbook successfully executed for IP: 8.8.8.8");
                    ("report", PStr ("# Report" ++ String LF ("clean" ++ String LF EmptyString)))]
                   200),
   [App.Spawn ["ansible-playbook"; "ansible/playbook.yml"; "--extra-vars";
               "ip_to_check=8.8.8.8"] false;
    App.OpenRead "report.md"]).
Proof.
  apply (proj1 (triage_success world_crlf_report [("ip", PStr "8.8.8.8")] "8.8.8.8" EmptyString
                  ("# Report" ++ String CR (String LF "clean" ++ String CR (String LF EmptyString)))
                  eq_refl ltac:(discriminate) eq_refl eq_refl)).
Defined.

(** X2: a body that Python takes for false (null, false, 0, 0.0, an
    empty string, list or object) is answered 400 with the missing-ip
    error, and nothing is run. *)
Theorem triage_falsy_body (w : App.World) (data : pyval) :
  truthy data = false ->
  App.triage_ip data w =
  (Ok (App.jsonify [("error", PStr "Missing 'ip' in request body")] 400), []).
Proof.
  intros H. unfold App.triage_ip. rewrite H. reflexivity.
Qed.

Lemma triage_falsy_body_witness :
  App.triage_ip (PList []) world_ok = (Ok missing_ip_response, [])
  /\ App.triage_ip (PInt 0) world_ok = (Ok missing_ip_response, [])
  /\ App.triage_ip (PFloat "0.0") world_ok = (Ok missing_ip_response, []).
Proof.
  split; [|split]; apply (triage_falsy_body world_ok); reflexivity.
Defined.

(** X3: a body that is not an object never gets the playbook started.
    It is answered 400 when it is false for Python, or a list without the
    element "ip", or a string without the substring "ip"; in every other
    case (a number, true, a list holding "ip", a string holding "ip") the
    handler raises TypeError. *)
Theorem triage_non_object_body (w : App.World) (data : pyval) :
  is_object data = false ->
  App.triage_ip data w =
  (if negb (truthy data) then Ok missing_ip_response
   else match data with
        | PList xs =>
            if existsb (fun x => eq_str x "ip") xs then Raised TypeError
            else Ok missing_ip_response
        | PStr s =>
            if str_contains "ip" s then Raised TypeError else Ok missing_ip_response
        | _ => Raised TypeError
        end,
   []).
Proof.
  intros H. unfold App.triage_ip.
  destruct data as [|b|n|f|s|xs|items]; try discriminate H.
  - reflexivity.
  - destruct b; reflexivity.
  - cbn [truthy]. destruct (n =? 0); reflexivity.
  - cbn [truthy]. destruct (String.eqb f "0.0" || String.eqb f "-0.0"); reflexivity.
  - cbn [truthy contains]. destruct (str_empty s); [reflexivity|].
    cbn. destruct (str_contains "ip" s); reflexivity.
  - cbn [truthy contains]. destruct xs as [|x xs]; [reflexivity|].
    cbn [negb]. eff_run.
    destruct (eq_str x "ip" || existsb (fun x0 => eq_str x0 "ip") xs); reflexivity.
Qed.

Lemma triage_non_object_body_witness :
  App.triage_ip (PList [PStr "ip"]) world_ok = (Raised TypeError, [])
  /\ App.triage_ip (PStr "8.8.8.8") world_ok = (Ok missing_ip_response, [])
  /\ App.triage_ip (PInt 5) world_ok = (Raised TypeError, []).
Proof.
  split; [|split].
  - apply (triage_non_object_body world_ok (PList [PStr "ip"])). reflexivity.
  - apply (triage_non_object_body world_ok (PStr "8.8.8.8")). reflexivity.
  - apply (triage_non_object_body world_ok (PInt 5)). reflexivity.
Defined.

(** A body that is not an object leaves no effect. *)
Lemma triage_non_object_trace (w : App.World) (data : pyval) :
  is_object data = false -> snd (App.triage_ip data w) = [].
Proof.
  intros H. unfold App.triage_ip.
  destruct data as [|b|n|f|s|xs|items]; try discriminate H.
  - reflexivity.
  - destruct b; reflexivity.
  - cbn [truthy]. destruct (n =? 0); reflexivity.
  - cbn [truthy]. destruct (String.eqb f "0.0" || String.eqb f "-0.0"); reflexivity.
  - cbn [truthy contains]. destruct (str_empty s); [reflexivity|].
    cbn. destruct (str_contains "ip" s); reflexivity.
  - cbn [truthy contains]. destruct xs as [|x xs]; [reflexivity|].
    cbn [negb]. eff_run.
    destruct (eq_str x "ip" || existsb (fun x0 => eq_str x0 "ip") xs); reflexivity.
Qed.

(** X4: whatever the body and the machine, the handler does nothing, or
    starts one process without a shell, or starts one process and then
    opens report.md; it opens the file only after a job that exited 0. *)
Theorem triage_effects (w : App.World) (data : pyval) :
  snd (App.triage_ip data w) = []
  \/ (exists v, snd (App.triage_ip data w) = [App.Spawn (App.command v) false]
                /\ exit_status_of (App.job w (App.command v)) <> Some 0)
  \/ (exists v, snd (App.triage_ip data w) =
                [App.Spawn (App.command v) false; App.OpenRead "report.md"]
                /\ exit_status_of (App.job w (App.command v)) = Some 0).
Proof.
  destruct (is_object data) eqn:Hobj.
  - destruct data as [| | | | | |items]; try discriminate Hobj.
    destruct (dict_get "ip" items) as [v|] eqn:Hip.
    + destruct (eq_str v "127.0.0.1") eqn:Hlo.
      * left. rewrite (triage_ip_with_ip w items v Hip), Hlo. reflexivity.
      * right.
        destruct (App.job w (App.command v)) as [|rc err|] eqn:Hjob.
        { left. exists v. rewrite (triage_not_found w items v Hip Hlo Hjob), Hjob.
          split; [reflexivity | discriminate]. }
        { destruct (Z.eq_dec rc 0) as [->|Hrc].
          - right. exists v.
            destruct (App.files w "report.md") as [[stored|why]|] eqn:Hfile.
            + rewrite (triage_report_read w items v Hip Hlo _ _ Hjob Hfile), Hjob.
              split; reflexivity.
            + rewrite (triage_report_unreadable w items v Hip Hlo _ _ Hjob Hfile), Hjob.
              split; reflexivity.
            + rewrite (triage_report_missing w items v Hip Hlo _ Hjob Hfile), Hjob.
              split; reflexivity.
          - left. exists v.
            rewrite (triage_job_failed w items v Hip Hlo _ _ Hjob Hrc), Hjob.
            split; [reflexivity|]. simpl. congruence. }
        left. exists v. rewrite (triage_null_byte w items v Hip Hlo Hjob), Hjob.
        split; [reflexivity | discriminate].
    + left. now rewrite (triage_ip_without_ip w items Hip).
  - left. now apply triage_non_object_trace.
Qed.

(** X5: the answer depends on the request object only through the value
    of its key ip; its other fields are ignored. *)
Theorem triage_ignores_other_fields
        (w : App.World) (items items' : list (string * pyval)) :
  dict_get "ip" items = dict_get "ip" items' ->
  App.triage_ip (PDict items) w = App.triage_ip (PDict items') w.
Proof.
  intros H. destruct (dict_get "ip" items') as [v|] eqn:Hip'.
  - now rewrite (triage_ip_with_ip w items v H), (triage_ip_with_ip w items' v Hip').
  - now rewrite (triage_ip_without_ip w items H), (triage_ip_without_ip w items' Hip').
Qed.

Lemma triage_ignores_other_fields_witness :
  App.triage_ip (PDict [("ip", PStr "8.8.8.8")]) world_ok =
  App.triage_ip (PDict [("ticket", PInt 42); ("ip", PStr "8.8.8.8"); ("dry_run", PBool true)])
                world_ok.
Proof.
  apply (triage_ignores_other_fields world_ok). reflexivity.
Defined.

(** Calls that show the same exit status end alike, up to what the job
    wrote: whether a vector holds U+0000 does not depend on the machine. *)
Lemma jobs_alike (w w' : App.World) (args : list string) :
  exit_status_of (App.job w args) = exit_status_of (App.job w' args) ->
  match App.job w args, App.job w' args with
  | App.ExecNotFound, App.ExecNotFound => True
  | App.Exited rc _, App.Exited rc' _ => rc = rc'
  | App.EmbeddedNull, App.EmbeddedNull => True
  | _, _ => False
  end.
Proof.
  unfold App.job.
  destruct (existsb (has_char NUL) args); [trivial|].
  destruct (App.exec w args), (App.exec w' args); simpl; intros H;
    trivial; congruence.
Qed.

(** X6: nothing the job writes on its standard error reaches the answer:
    two machines whose jobs end alike (not found, or the same exit
    status) and whose files are the same give the same answer and the
    same effects, whatever each job wrote. *)
Theorem triage_stderr_not_returned (w w' : App.World) (data : pyval) :
  (forall argv, exit_status_of (App.job w argv) = exit_status_of (App.job w' argv)) ->
  (forall path, App.files w path = App.files w' path) ->
  App.triage_ip data w = App.triage_ip data w'.
Proof.
  intros Hjob Hfiles.
  destruct (is_object data) eqn:Hobj.
  - destruct data as [| | | | | |items]; try discriminate Hobj.
    destruct (dict_get "ip" items) as [v|] eqn:Hip.
    + destruct (eq_str v "127.0.0.1") eqn:Hlo.
      { now rewrite (triage_ip_with_ip w items v Hip),
          (triage_ip_with_ip w' items v Hip), Hlo. }
      pose proof (jobs_alike w w' (App.command v) (Hjob _)) as Halike.
      pose proof (Hfiles "report.md") as Hfile'. symmetry in Hfile'.
      destruct (App.job w (App.command v)) as [|rc err|] eqn:J,
               (App.job w' (App.command v)) as [|rc' err'|] eqn:J';
        try contradiction.
      * now rewrite (triage_not_found w items v Hip Hlo J),
          (triage_not_found w' items v Hip Hlo J').
      * subst rc'. destruct (Z.eq_dec rc 0) as [->|Hrc].
        -- destruct (App.files w "report.md") as [[stored|why]|] eqn:Hfile.
           ++ now rewrite (triage_report_read w items v Hip Hlo _ _ J Hfile),
                (triage_report_read w' items v Hip Hlo _ _ J' Hfile').
           ++ now rewrite (triage_report_unreadable w items v Hip Hlo _ _ J Hfile),
                (triage_report_unreadable w' items v Hip Hlo _ _ J' Hfile').
           ++ now rewrite (triage_report_missing w items v Hip Hlo _ J Hfile),
                (triage_report_missing w' items v Hip Hlo _ J' Hfile').
        -- now rewrite (triage_job_failed w items v Hip Hlo _ _ J Hrc),
             (triage_job_failed w' items v Hip Hlo _ _ J' Hrc).
      * now rewrite (triage_null_byte w items v Hip Hlo J),
          (triage_null_byte w' items v Hip Hlo J').
    + now rewrite !triage_ip_without_ip.
  - rewrite (surjective_pairing (App.triage_ip data w)),
      (surjective_pairing (App.triage_ip data w')).
    rewrite !triage_non_object_trace by assumption.
    f_equal. unfold App.triage_ip.
    destruct data as [|b|n|f|s|xs|items]; try discriminate Hobj.
    + reflexivity.
    + destruct b; reflexivity.
    + cbn [truthy]. destruct (n =? 0); reflexivity.
    + cbn [truthy]. destruct (String.eqb f "0.0" || String.eqb f "-0.0"); reflexivity.
    + cbn [truthy contains]. destruct (str_empty s); [reflexivity|].
      cbn. destruct (str_contains "ip" s); reflexivity.
    + cbn [truthy contains]. destruct xs as [|x xs]; [reflexivity|].
      cbn [negb]. eff_run.
      destruct (eq_str x "ip" || existsb (fun x0 => eq_str x0 "ip") xs); reflexivity.
Qed.

Lemma triage_stderr_not_returned_witness :
  App.triage_ip (request_for "8.8.8.8") world_boom =
  App.triage_ip (request_for "8.8.8.8") world_silent_failure.
Proof.
  apply (triage_stderr_not_returned world_boom world_silent_failure).
  - intros argv. unfold App.job. destruct (existsb (has_char NUL) argv); reflexivity.
  - intros path. reflexivity.
Defined.

(** X7: an ip that is not a string (null, a boolean, a number, a list, an
    object) is never taken for the loopback address: the job is started,
    with the value rendered as Python's str renders it. *)
Theorem triage_non_string_ip
        (w : App.World) (items : list (string * pyval)) (v : pyval) :
  dict_get "ip" items = Some v ->
  (forall s, v <> PStr s) ->
  spawned (snd (App.triage_ip (PDict items) w)) =
  [(["ansible-playbook"; "ansible/playbook.yml"; "--extra-vars"; "ip_to_check=" ++ str v],
    false)].
Proof.
  intros H Hv. apply (triage_spawns_command w items v H).
  destruct v; try reflexivity. now contradiction (Hv s).
Qed.

Lemma triage_non_string_ip_witness :
  spawned (snd (App.triage_ip (PDict [("ip", PNone)]) world_ok)) =
  [(["ansible-playbook"; "ansible/playbook.yml"; "--extra-vars"; "ip_to_check=None"],
    false)]
  /\ spawned (snd (App.triage_ip (PDict [("ip", PInt 2130706433)]) world_ok)) =
     [(["ansible-playbook"; "ansible/playbook.yml"; "--extra-vars";
        "ip_to_check=2130706433"], false)].
Proof.
  split.
  - apply (triage_non_string_ip world_ok [("ip", PNone)] PNone); [reflexivity|].
    intros s. discriminate.
  - apply (triage_non_string_ip world_ok [("ip", PInt 2130706433)] (PInt 2130706433));
      [reflexivity|].
    intros s. discriminate.
Defined.

(** X8: whenever the handler returns a response for a body that is a
    JSON object, its status is 200, 400 or 500, and it is 200 only when
    the ip is the string 127.0.0.1 or the job was run and exited 0: a
    success is never reported after a job that failed or did not start. *)
Theorem triage_response_status
        (w : App.World) (items : list (string * pyval)) (resp : App.Response) :
  fst (App.triage_ip (PDict items) w) = Ok resp ->
  (App.status resp = 200 \/ App.status resp = 400 \/ App.status resp = 500)
  /\ (App.status resp = 200 ->
      dict_get "ip" items = Some (PStr "127.0.0.1")
      \/ exists v, dict_get "ip" items = Some v
                   /\ exit_status_of (App.job w (App.command v)) = Some 0).
Proof.
  destruct (dict_get "ip" items) as [v|] eqn:Hip.
  - destruct (eq_str v "127.0.0.1") eqn:Hlo.
    + rewrite (triage_ip_with_ip w items v Hip), Hlo.
      intros H. injection H as <-. split; [now left|].
      intros _. left. destruct v; try discriminate Hlo.
      simpl in Hlo. apply String.eqb_eq in Hlo. now subst.
    + destruct (App.job w (App.command v)) as [|rc err|] eqn:Hjob.
      * rewrite (triage_not_found w items v Hip Hlo Hjob).
        intros H. injection H as <-. split; [now right; right | discriminate].
      * destruct (Z.eq_dec rc 0) as [->|Hrc].
        -- destruct (App.files w "report.md") as [[stored|why]|] eqn:Hfile.
           ++ rewrite (triage_report_read w items v Hip Hlo _ _ Hjob Hfile).
              intros H. injection H as <-. split; [now left|].
              intros _. right. exists v. split; [reflexivity | now rewrite Hjob].
           ++ rewrite (triage_report_unreadable w items v Hip Hlo _ _ Hjob Hfile).
              discriminate.
           ++ rewrite (triage_report_missing w items v Hip Hlo _ Hjob Hfile).
              intros H. injection H as <-. split; [now right; right | discriminate].
        -- rewrite (triage_job_failed w items v Hip Hlo _ _ Hjob Hrc).
           intros H. injection H as <-. split; [now right; right | discriminate].
      * rewrite (triage_null_byte w items v Hip Hlo Hjob). discriminate.
  - rewrite (triage_ip_without_ip w items Hip).
    intros H. injection H as <-. split; [now right; left | discriminate].
Qed.

Lemma triage_response_status_witness :
  (App.status (success_response "8.8.8.8" "OK") = 200
   \/ App.status (success_response "8.8.8.8" "OK") = 400
   \/ App.status (success_response "8.8.8.8" "OK") = 500)
  /\ (App.status (success_response "8.8.8.8" "OK") = 200 ->
      dict_get "ip" [("ip", PStr "8.8.8.8")] = Some (PStr "127.0.0.1")
      \/ exists v, dict_get "ip" [("ip", PStr "8.8.8.8")] = Some v
                   /\ exit_status_of (App.job world_ok (App.command v)) = Some 0).
Proof.
  apply (triage_response_status world_ok [("ip", PStr "8.8.8.8")]
           (success_response "8.8.8.8" "OK")).
  reflexivity.
Defined.

(* ===================================================================== *)
(** * The lookup scripts: the rest of their behaviour *)
(* ===================================================================== *)

(** Every way a run of a lookup script can go, one goal each; [leaf]
    closes a goal in which the run is a value. *)
Ltac lookup_cases leaf :=
  repeat (script_run;
          match goal with
          | |- context [match Script.secrets ?w with _ => _ end] =>
              destruct (Script.secrets w) eqn:?
          | |- context [if str_empty (spec_api_key ?n ?l) then _ else _] =>
              destruct (str_empty (spec_api_key n l)) eqn:?
          | |- context [Script.argv ?w] =>
              destruct (Script.argv w) as [|? [|? ?]] eqn:?
          | |- context [match Script.network ?w ?r with _ => _ end] =>
              destruct (Script.network w r) eqn:?
          | |- context [if (400 <=? ?s) && (?s <? 600) then _ else _] =>
              destruct ((400 <=? s) && (s <? 600)) eqn:?
          | |- context [match Script.payload ?r with _ => _ end] =>
              destruct (Script.payload r) as [?|[|] ?] eqn:?
          | |- context [get (PDict ?i) ?k ?d] => rewrite (get_or_default i k d)
          | |- context [get (or_default _ (dict_get ?k ?i)) _ _] =>
              destruct (dict_get k i) eqn:?
          | |- context [get ?x _ _] => is_var x; destruct x
          | |- context [get _ _ _] => unfold get
          end);
  leaf.

Ltac abuseipdb_start :=
  unfold Script.run;
  rewrite ?abuseipdb_script_unfold, ?abuseipdb_config;
  unfold CheckAbuseIPDB.main.

Ltac virustotal_start :=
  unfold Script.run;
  rewrite ?virustotal_script_unfold, ?virustotal_config;
  unfold CheckVirusTotal.main.

(** X9: every run of either script exits with status 0 or 1, writes at
    most one line on standard output and sends at most one request (there
    is no retry). *)
Theorem lookup_run_bounds (w : Script.World) :
  ((fst (Script.run CheckAbuseIPDB.script w) = 0
    \/ fst (Script.run CheckAbuseIPDB.script w) = 1)
   /\ (length (stdout (snd (Script.run CheckAbuseIPDB.script w))) <= 1)%nat
   /\ (length (requested (snd (Script.run CheckAbuseIPDB.script w))) <= 1)%nat)
  /\
  ((fst (Script.run CheckVirusTotal.script w) = 0
    \/ fst (Script.run CheckVirusTotal.script w) = 1)
   /\ (length (stdout (snd (Script.run CheckVirusTotal.script w))) <= 1)%nat
   /\ (length (requested (snd (Script.run CheckVirusTotal.script w))) <= 1)%nat).
Proof.
  split.
  - abuseipdb_start.
    lookup_cases ltac:(split; [first [now left | now right] | split; cbn; lia]).
  - virustotal_start.
    lookup_cases ltac:(split; [first [now left | now right] | split; cbn; lia]).
Qed.

Lemma status_ok (code : Z) :
  ~ (400 <= code < 600) -> (400 <=? code) && (code <? 600) = false.
Proof.
  intros H. apply andb_false_iff.
  destruct (Z.leb_spec 400 code); [right | now left].
  apply Z.ltb_ge. lia.
Qed.

(** X10: on a successful lookup whose body is a JSON object,
    [check_abuseipdb.py] opens the secrets file, sends one request and
    prints what the body holds under data, unchanged whatever it is, or
    an empty object when the key is absent; it exits with status 0. *)
Theorem abuseipdb_success
        (w : Script.World) (lines : list string) (prog ip : string) (rest : list string)
        (r : Script.HttpResponse) (top : list (string * pyval)) :
  Script.secrets w = Some lines ->
  str_empty (spec_api_key "abuseipdb_key:" lines) = false ->
  Script.argv w = prog :: ip :: rest ->
  Script.network w (CheckAbuseIPDB.request (spec_api_key "abuseipdb_key:" lines) ip)
    = Script.Responded r ->
  ~ (400 <= Script.status_code r < 600) ->
  Script.payload r = Script.Decoded (PDict top) ->
  Script.run CheckAbuseIPDB.script w =
  (0, [Script.OpenRead (Script.secrets_path w);
       Script.HttpGet (CheckAbuseIPDB.request (spec_api_key "abuseipdb_key:" lines) ip);
       Script.Stdout (or_default (PDict []) (dict_get "data" top))]).
Proof.
  intros Hsec Hkey Hargv Hnet Hstatus Hbody. apply status_ok in Hstatus.
  abuseipdb_start. rewrite Hsec, Hkey. script_run.
  rewrite Hargv. script_run. rewrite Hnet. script_run.
  rewrite Hstatus. script_run. rewrite Hbody. script_run.
  rewrite get_or_default. reflexivity.
Qed.

Lemma abuseipdb_success_witness :
  Script.run CheckAbuseIPDB.script
    (lookup_world_answering (PDict [("data", PDict [("abuseConfidenceScore", PInt 7)])])) =
  (0, [Script.OpenRead "/srv/devops-soar/secrets.yml";
       Script.HttpGet (CheckAbuseIPDB.request "abc123" "8.8.8.8");
       Script.Stdout (PDict [("abuseConfidenceScore", PInt 7)])]).
Proof.
  apply (abuseipdb_success
           (lookup_world_answering (PDict [("data", PDict [("abuseConfidenceScore", PInt 7)])]))
           ["# provider keys"; "abuseipdb_key: abc123"; "virustotal_key:   vt9 "]
           "check.py" "8.8.8.8" []
           {| Script.status_code := 200;
              Script.reason := "OK";
              Script.final_url := "https://provider.example/8.8.8.8";
              Script.payload :=
                Script.Decoded (PDict [("data", PDict [("abuseConfidenceScore", PInt 7)])]) |}
           [("data", PDict [("abuseConfidenceScore", PInt 7)])]).
  - reflexivity.
  - reflexivity.
  - reflexivity.
  - reflexivity.
  - simpl. lia.
  - reflexivity.
Defined.

(** X11: when the body decodes to JSON that is not an object (a list, a
    string, a number, null), [check_abuseipdb.py] ends on an uncaught
    AttributeError: exit status 1, nothing on standard output. *)
Theorem abuseipdb_non_object_body
        (w : Script.World) (lines : list string) (prog ip : string) (rest : list string)
        (r : Script.HttpResponse) (v : pyval) :
  Script.secrets w = Some lines ->
  str_empty (spec_api_key "abuseipdb_key:" lines) = false ->
  Script.argv w = prog :: ip :: rest ->
  Script.network w (CheckAbuseIPDB.request (spec_api_key "abuseipdb_key:" lines) ip)
    = Script.Responded r ->
  ~ (400 <= Script.status_code r < 600) ->
  Script.payload r = Script.Decoded v ->
  is_object v = false ->
  Script.run CheckAbuseIPDB.script w =
  (1, [Script.OpenRead (Script.secrets_path w);
       Script.HttpGet (CheckAbuseIPDB.request (spec_api_key "abuseipdb_key:" lines) ip);
       Script.Traceback AttributeError]).
Proof.
  intros Hsec Hkey Hargv Hnet Hstatus Hbody Hv. apply status_ok in Hstatus.
  abuseipdb_start. rewrite Hsec, Hkey. script_run.
  rewrite Hargv. script_run. rewrite Hnet. script_run.
  rewrite Hstatus. script_run. rewrite Hbody. script_run.
  destruct v; try discriminate Hv; reflexivity.
Qed.

Lemma abuseipdb_non_object_body_witness :
  Script.run CheckAbuseIPDB.script (lookup_world_answering (PList [])) =
  (1, [Script.OpenRead "/srv/devops-soar/secrets.yml";
       Script.HttpGet (CheckAbuseIPDB.request "abc123" "8.8.8.8");
       Script.Traceback AttributeError]).
Proof.
  apply (abuseipdb_non_object_body
           (lookup_world_answering (PList []))
           ["# provider keys"; "abuseipdb_key: abc123"; "virustotal_key:   vt9 "]
           "check.py" "8.8.8.8" []
           {| Script.status_code := 200;
              Script.reason := "OK";
              Script.final_url := "https://provider.example/8.8.8.8";
              Script.payload := Script.Decoded (PList []) |}
           (PList [])).
  - reflexivity.
  - reflexivity.
  - reflexivity.
  - reflexivity.
  - simpl. lia.
  - reflexivity.
  - reflexivity.
Defined.

(** X12: when the body decodes but is not a report (the body, its data or
    its attributes is not an object, or last_analysis_stats is not one),
    [check_virustotal.py] ends on an uncaught AttributeError: exit status
    1 and nothing on standard output. *)
Theorem virustotal_malformed_report
        (w : Script.World) (lines : list string) (prog ip : string) (rest : list string)
        (r : Script.HttpResponse) (v : pyval) :
  Script.secrets w = Some lines ->
  str_empty (spec_api_key "virustotal_key:" lines) = false ->
  Script.argv w = prog :: ip :: rest ->
  Script.network w (CheckVirusTotal.request (spec_api_key "virustotal_key:" lines) ip)
    = Script.Responded r ->
  ~ (400 <= Script.status_code r < 600) ->
  Script.payload r = Script.Decoded v ->
  (forall attrs stats, vt_report v <> Some (attrs, PDict stats)) ->
  fst (Script.run CheckVirusTotal.script w) = 1
  /\ stdout (snd (Script.run CheckVirusTotal.script w)) = []
  /\ In (Script.Traceback AttributeError) (snd (Script.run CheckVirusTotal.script w)).
Proof.
  intros Hsec Hkey Hargv Hnet Hstatus Hbody Hshape. apply status_ok in Hstatus.
  virustotal_start. rewrite Hsec, Hkey. script_run.
  rewrite Hargv. script_run. rewrite Hnet. script_run.
  rewrite Hstatus. script_run. rewrite Hbody.
  lookup_cases
    ltac:(first
            [ split; [reflexivity | split; [reflexivity | cbn; tauto]]
            | exfalso; eapply Hshape; unfold vt_report, object_at;
              repeat (cbn; match goal with
                           | H : dict_get _ _ = _ |- _ => rewrite H; clear H
                           end);
              cbn; reflexivity ]).
Qed.

Lemma virustotal_malformed_report_witness :
  fst (Script.run CheckVirusTotal.script
         (lookup_world_answering (PDict [("data", PNone)]))) = 1
  /\ stdout (snd (Script.run CheckVirusTotal.script
                    (lookup_world_answering (PDict [("data", PNone)])))) = []
  /\ In (Script.Traceback AttributeError)
        (snd (Script.run CheckVirusTotal.script
                (lookup_world_answering (PDict [("data", PNone)])))).
Proof.
  apply (virustotal_malformed_report
           (lookup_world_answering (PDict [("data", PNone)]))
           ["# provider keys"; "abuseipdb_key: abc123"; "virustotal_key:   vt9 "]
           "check.py" "8.8.8.8" []
           {| Script.status_code := 200;
              Script.reason := "OK";
              Script.final_url := "https://provider.example/8.8.8.8";
              Script.payload := Script.Decoded (PDict [("data", PNone)]) |}
           (PDict [("data", PNone)])).
  - reflexivity.
  - reflexivity.
  - reflexivity.
  - reflexivity.
  - simpl. lia.
  - reflexivity.
  - intros attrs stats. discriminate.
Defined.

Ltac request_case :=
  first
    [ left; reflexivity
    | right; do 4 eexists;
      split; [reflexivity | split; [eassumption | split; reflexivity]] ].

(** X13: [check_abuseipdb.py] sends a request only after it has loaded a
    key that is not blank and found an IP argument, and the request is
    then a GET of the fixed check URL with the key in the header Key and,
    as parameters, the argument as ipAddress and maxAgeInDays 90. *)
Theorem abuseipdb_request (w : Script.World) :
  requested (snd (Script.run CheckAbuseIPDB.script w)) = []
  \/ exists lines prog ip rest,
       Script.secrets w = Some lines
       /\ str_empty (spec_api_key "abuseipdb_key:" lines) = false
       /\ Script.argv w = prog :: ip :: rest
       /\ requested (snd (Script.run CheckAbuseIPDB.script w)) =
          [ {| Script.url := "https://api.abuseipdb.com/api/v2/check";
               Script.headers := [("Accept", "application/json");
                                  ("Key", spec_api_key "abuseipdb_key:" lines)];
               Script.params := [("ipAddress", ip); ("maxAgeInDays", "90")] |} ].
Proof.
  abuseipdb_start. lookup_cases request_case.
Qed.

(** X14: [check_virustotal.py] sends a request only after it has loaded
    a key that is not blank and found an IP argument, and the request is
    then a GET of the fixed URL with the argument appended as it is, the
    key in the header x-apikey, and no parameters. *)
Theorem virustotal_request (w : Script.World) :
  requested (snd (Script.run CheckVirusTotal.script w)) = []
  \/ exists lines prog ip rest,
       Script.secrets w = Some lines
       /\ str_empty (spec_api_key "virustotal_key:" lines) = false
       /\ Script.argv w = prog :: ip :: rest
       /\ requested (snd (Script.run CheckVirusTotal.script w)) =
          [ {| Script.url := "https://www.virustotal.com/api/v3/ip_addresses/" ++ ip;
               Script.headers := [("accept", "application/json");
                                  ("x-apikey", spec_api_key "virustotal_key:" lines)];
               Script.params := [] |} ].
Proof.
  virustotal_start. lookup_cases request_case.
Qed.

(** X15: [check_abuseipdb.py] never pauses.  [check_virustotal.py] pauses
    one second at most: not at all on a failure it handles, and exactly
    once, for one second, on a run that exits with status 0. *)
Theorem lookup_pauses (w : Script.World) :
  slept (snd (Script.run CheckAbuseIPDB.script w)) = []
  /\ (fault "virustotal_key:" CheckVirusTotal.request w = true ->
      slept (snd (Script.run CheckVirusTotal.script w)) = [])
  /\ (fst (Script.run CheckVirusTotal.script w) = 0 ->
      slept (snd (Script.run CheckVirusTotal.script w)) = [1])
  /\ (slept (snd (Script.run CheckVirusTotal.script w)) = []
      \/ slept (snd (Script.run CheckVirusTotal.script w)) = [1]).
Proof.
  split.
  - abuseipdb_start. lookup_cases reflexivity.
  - unfold fault. virustotal_start.
    lookup_cases
      ltac:(split; [intros; first [discriminate | reflexivity]
                   | split; [intros; first [discriminate | reflexivity]
                            | first [now left | now right]]]).
Qed.

(** X16: both scripts read the IP from their first argument alone: on two
    machines that differ only in the program name and in what follows
    the first argument, a script runs alike. *)
Theorem lookup_reads_first_argument
        (w w' : Script.World) (prog prog' ip : string) (rest rest' : list string) :
  Script.secrets_path w = Script.secrets_path w' ->
  Script.secrets w = Script.secrets w' ->
  (forall req, Script.network w req = Script.network w' req) ->
  Script.argv w = prog :: ip :: rest ->
  Script.argv w' = prog' :: ip :: rest' ->
  Script.run CheckAbuseIPDB.script w = Script.run CheckAbuseIPDB.script w'
  /\ Script.run CheckVirusTotal.script w = Script.run CheckVirusTotal.script w'.
Proof.
  intros Hpath Hsec Hnet Hargv Hargv'. split.
  - abuseipdb_start. rewrite Hpath, Hsec.
    destruct (Script.secrets w'); [|reflexivity].
    destruct (str_empty _); [reflexivity|].
    script_run. rewrite Hargv, Hargv'. script_run. rewrite Hnet.
    lookup_cases reflexivity.
  - virustotal_start. rewrite Hpath, Hsec.
    destruct (Script.secrets w'); [|reflexivity].
    destruct (str_empty _); [reflexivity|].
    script_run. rewrite Hargv, Hargv'. script_run. rewrite Hnet.
    lookup_cases reflexivity.
Qed.

Lemma lookup_reads_first_argument_witness :
  Script.run CheckAbuseIPDB.script lookup_world =
  Script.run CheckAbuseIPDB.script
    (lookup_world_with ["# provider keys"; "abuseipdb_key: abc123"; "virustotal_key:   vt9 "]
                       ["./check"; "8.8.8.8"; "1.1.1.1"; "--verbose"])
  /\ Script.run CheckVirusTotal.script lookup_world =
     Script.run CheckVirusTotal.script
       (lookup_world_with ["# provider keys"; "abuseipdb_key: abc123"; "virustotal_key:   vt9 "]
                          ["./check"; "8.8.8.8"; "1.1.1.1"; "--verbose"]).
Proof.
  apply (lookup_reads_first_argument
           lookup_world
           (lookup_world_with
              ["# provider keys"; "abuseipdb_key: abc123"; "virustotal_key:   vt9 "]
              ["./check"; "8.8.8.8"; "1.1.1.1"; "--verbose"])
           "check.py" "./check" "8.8.8.8" [] ["1.1.1.1"; "--verbose"]).
  - reflexivity.
  - reflexivity.
  - intros req. reflexivity.
  - reflexivity.
  - reflexivity.
Defined.

(* ===================================================================== *)
(** * The lookup scripts: which text of the secrets file becomes the key *)
(* ===================================================================== *)

Section KeyLines.








Variable name : string.
Hypothesis name_plain : has_char ":" name = false.


End KeyLines.

(** The first line that holds the key name decides: what follows it in
    the file does not count. *)
Lemma spec_api_key_first_match (needle line : string) (pre post post' : list string) :
  str_contains needle line = true ->
  spec_api_key needle (pre ++ line :: post) = spec_api_key needle (pre ++ line :: post').
Proof.
  intros H. unfold spec_api_key.
  induction pre as [|l pre IH]; cbn [app find].
  - now rewrite H.
  - destruct (str_contains needle l); [reflexivity | exact IH].
Qed.





(** X19: the first line that holds the key name decides alone, also when
    it yields a blank key: the lines after it do not change what the
    configuration block does. *)
Theorem api_key_first_match_decides
        (w w' : Script.World) (line : string) (pre post post' : list string) :
  Script.secrets_path w = Script.secrets_path w' ->
  Script.secrets w = Some (pre ++ line :: post)%list ->
  Script.secrets w' = Some (pre ++ line :: post')%list ->
  (str_contains "abuseipdb_key:" line = true ->
   CheckAbuseIPDB.config w = CheckAbuseIPDB.config w')
  /\ (str_contains "virustotal_key:" line = true ->
      CheckVirusTotal.config w = CheckVirusTotal.config w').
Proof.
  intros Hpath Hsec Hsec'. split; intros Hline.
  - rewrite !abuseipdb_config, Hsec, Hsec', Hpath.
    now rewrite (spec_api_key_first_match _ _ pre post post' Hline).
  - rewrite !virustotal_config, Hsec, Hsec', Hpath.
    now rewrite (spec_api_key_first_match _ _ pre post post' Hline).
Qed.

Lemma api_key_first_match_decides_witness :
  CheckAbuseIPDB.config
    (lookup_world_with ["# keys"; "abuseipdb_key:"; "abuseipdb_key: abc123"] ["check.py"]) =
  CheckAbuseIPDB.config
    (lookup_world_with ["# keys"; "abuseipdb_key:"] ["check.py"]).
Proof.
  apply (proj1 (api_key_first_match_decides
                  (lookup_world_with ["# keys"; "abuseipdb_key:"; "abuseipdb_key: abc123"]
                                     ["check.py"])
                  (lookup_world_with ["# keys"; "abuseipdb_key:"] ["check.py"])
                  "abuseipdb_key:" ["# keys"] ["abuseipdb_key: abc123"] []
                  eq_refl eq_refl eq_refl)).
  reflexivity.
Defined.

(** The blank first match of the machine above makes the script give up,
    though the next line has a key. *)
Example blank_first_match_shadows_later_key :
  Script.run CheckAbuseIPDB.script
    (lookup_world_with ["# keys"; "abuseipdb_key:"; "abuseipdb_key: abc123"]
                       ["check.py"; "8.8.8.8"]) =
  (1, [Script.OpenRead "/srv/devops-soar/secrets.yml";
       Script.Stdout (PDict [("error",
         PStr "AbuseIPDB API key not found or is empty in secrets.yml")])]).
Proof. reflexivity. Qed.
